(** * Hyperspy workshop notebooks: syntax of the code cells, the kernel that
    runs them, and the three computations the notebooks write themselves.

    The repository holds two Jupyter notebooks: the Atomap tutorial
    (hyperspy + atomap) and [abTEM/atomic_models_with_ase.ipynb] (ase + abtem).
    Part 1 transcribes every code cell as an abstract syntax tree.  Part 2
    gives the predicates that read this syntax.  Part 3 is the kernel running
    cells one statement after another, with exceptions.  Part 4 embeds the
    locally written computations: [get_live_fft], the ABF contrast inversion
    and the SrTiO3/LaTiO3 interface masking.  Part 5 holds the theorems on
    the claims, Part 6 further properties of the same code. *)

From Stdlib Require Import ZArith QArith Floats Bool Ascii String Lia.
From stdpp Require Import base option strings list gmap.

#[local] Set Warnings "-register-all".

Local Close Scope Q_scope.
Local Open Scope string_scope.
Local Open Scope list_scope.

(** ** Part 1. Syntax of the code cells *)

(** The fragment of Python's [ast] the notebooks are written in, together
    with the compound statements ([if], [while], [for], [with], [try],
    [raise], [class]) that they never use: these are kept so that their
    absence can be stated.  A [try] has one [except] clause. *)

Inductive operator := Add | Sub | Mult | Div.

Inductive unaryop := USub.

Inductive cmpop := Eq | NotEq | Lt | LtE | Gt | GtE.

Inductive expr :=
| EName (id : string)
| EStr (s : string)
| EInt (n : Z)
| EFloat (q : Q)
| EBool (b : bool)
| EAttribute (value : expr) (attr : string)
| ECall (func : expr) (args : list expr) (keywords : list (string * expr))
| ESubscript (value : expr) (slice : expr)
| ESlice (lower upper : option expr)
| ETuple (elts : list expr)
| EList (elts : list expr)
| EBinOp (left : expr) (op : operator) (right : expr)
| EUnaryOp (op : unaryop) (operand : expr)
| ECompare (left : expr) (op : cmpop) (right : expr).

Inductive stmt :=
| SMagic (line : string)
| SImport (name : string) (asname : option string)
| SImportFrom (module : string) (name : string)
| SAssign (target : expr) (value : expr)
| SAugAssign (target : expr) (op : operator) (value : expr)
| SExpr (value : expr)
| SReturn (value : expr)
| SFunctionDef (name : string) (args : list string) (body : list stmt)
| SClassDef (name : string) (body : list stmt)
| SIf (test : expr) (body orelse : list stmt)
| SWhile (test : expr) (body : list stmt)
| SFor (target iter : expr) (body : list stmt)
| SWith (item : expr) (body : list stmt)
| STry (body : list stmt) (type : option expr) (handler finalbody : list stmt)
| SRaise (exc : expr).

(** A code cell: its position among all cells of the notebook (markdown cells
    included, counted from 0) and its statements. *)
Record cell := Cell { index : nat; source : list stmt }.

Local Open Scope Q_scope.

(** The Atomap tutorial notebook. *)
Definition atomap_tutorial : list cell :=
[
  Cell 4
    [SMagic "%matplotlib widget"];
  Cell 6
    [SImport "hyperspy.api" (Some "hs")];
  Cell 7
    [SImport "atomap.api" (Some "am")];
  Cell 10
    [SAssign (EName "s") (ECall (EAttribute (EName "hs") "load") [EStr "ADF_image.hspy"] [])];
  Cell 12
    [SExpr (ECall (EAttribute (EName "s") "plot") [] [])];
  Cell 14
    [SAssign (EName "s_abf")
       (ECall (EAttribute (EName "hs") "load") [EStr "ABF_image.hspy"] [])];
  Cell 16
    [SExpr (ECall (EAttribute (EName "s_abf") "plot") [] [])];
  Cell 18
    [SFunctionDef "get_live_fft" ["s"]
       [SAssign (EName "roi")
          (ECall (EAttribute (EAttribute (EName "hs") "roi") "RectangularROI") [] []);
        SExpr (ECall (EAttribute (EName "s") "plot") [] []);
        SAssign (EName "s_roi") (ECall (EAttribute (EName "roi") "interactive") [EName "s"] []);
        SAssign (EName "s_fft")
          (ECall (EAttribute (EName "hs") "interactive") [EAttribute (EName "s_roi") "fft"]
             [("shift", EBool true)]);
        SExpr (ECall (EAttribute (EName "s_fft") "plot") [] [("power_spectrum", EBool true)]);
        SReturn (EName "s_fft")]];
  Cell 20
    [SExpr (ECall (EName "get_live_fft") [EName "s"] [])];
  Cell 24
    [SAssign (EName "s_peaks")
       (ECall (EAttribute (EName "am") "get_feature_separation") [EName "s"]
          [("pca", EBool true)])];
  Cell 26
    [SExpr (ECall (EAttribute (EName "s_peaks") "plot") [] [])];
  Cell 28
    [SAssign (EName "atom_positions")
       (ECall (EAttribute (EName "am") "get_atom_positions") [EName "s"]
          [("separation", EInt 12); ("pca", EBool true)])];
  Cell 32
    [SAssign (EName "sublattice_A")
       (ECall (EAttribute (EName "am") "Sublattice") []
          [("atom_position_list", EName "atom_positions"); ("image", EName "s")])];
  Cell 34
    [SExpr (ECall (EAttribute (EName "sublattice_A") "plot") [] [])];
  Cell 36
    [SExpr (ECall (EAttribute (EName "sublattice_A") "find_nearest_neighbors") [] [])];
  Cell 37
    [SExpr
       (ECall (EAttribute (EName "sublattice_A") "refine_atom_positions_using_center_of_mass")
          [] [])];
  Cell 39
    [SExpr
       (ECall (EAttribute (EName "sublattice_A") "refine_atom_positions_using_2d_gaussian") []
          [])];
  Cell 41
    [SExpr (ECall (EAttribute (EName "sublattice_A") "plot") [] [])];
  Cell 44
    [SExpr (ECall (EAttribute (EName "sublattice_A") "construct_zone_axes") [] [])];
  Cell 46
    [SExpr (ECall (EAttribute (EName "sublattice_A") "plot_planes") [] [])];
  Cell 49
    [SAssign (EName "monolayer_a")
       (ECall (EAttribute (EName "sublattice_A") "get_monolayer_distance_map") [] [])];
  Cell 50
    [SExpr (ECall (EAttribute (EName "monolayer_a") "plot") [] [])];
  Cell 53
    [SAssign (EName "zone_axis_111")
       (ESubscript (EAttribute (EName "sublattice_A") "zones_axis_average_distances")
          (EInt 2))];
  Cell 55
    [SAssign (EName "interface_layer_111")
       (ESubscript
          (ESubscript (EAttribute (EName "sublattice_A") "atom_planes_by_zone_vector")
             (EName "zone_axis_111"))
          (EInt 34))];
  Cell 56
    [SExpr (EName "interface_layer_111")];
  Cell 58
    [SAssign (EName "s_A_monolayer")
       (ECall (EAttribute (EName "sublattice_A") "get_monolayer_distance_line_profile") []
          [("zone_vector", EName "zone_axis_111");
           ("atom_plane", EName "interface_layer_111")])];
  Cell 60
    [SExpr (ECall (EAttribute (EName "s_A_monolayer") "plot") [] [])];
  Cell 62
    [SExpr (EAttribute (EAttribute (EName "s_A_monolayer") "metadata") "line_profile_data")];
  Cell 64
    [SAssign (EName "s_A_elli")
       (ECall (EAttribute (EName "sublattice_A") "get_ellipticity_map") [] [])];
  Cell 66
    [SExpr (ECall (EAttribute (EName "s_A_elli") "plot") [] [])];
  Cell 68
    [SAssign (EName "s_A_elli_line")
       (ECall (EAttribute (EName "sublattice_A") "get_ellipticity_line_profile")
          [EName "interface_layer_111"] [])];
  Cell 70
    [SExpr (ECall (EAttribute (EName "s_A_elli_line") "plot") [] [])];
  Cell 72
    [SExpr (ECall (EAttribute (EName "sublattice_A") "plot_ellipticity_vectors") [] [])];
  Cell 75
    [SAssign (EName "data_abf_invert")
       (EBinOp (EInt 1) Div (EAttribute (EName "s_abf") "data"))];
  Cell 77
    [SAssign (EName "initial_position_A") (EAttribute (EName "sublattice_A") "atom_positions")];
  Cell 78
    [SAssign (EName "sublattice_A2")
       (ECall (EAttribute (EName "am") "Sublattice") [EName "initial_position_A"]
          [("image", EName "data_abf_invert"); ("color", EStr "r"); ("name", EStr "A")])];
  Cell 80
    [SExpr (ECall (EAttribute (EName "sublattice_A2") "find_nearest_neighbors") [] []);
     SExpr
       (ECall (EAttribute (EName "sublattice_A2") "refine_atom_positions_using_center_of_mass")
          [] []);
     SExpr
       (ECall (EAttribute (EName "sublattice_A2") "refine_atom_positions_using_2d_gaussian") []
          []);
     SExpr (ECall (EAttribute (EName "sublattice_A2") "construct_zone_axes") [] [])];
  Cell 82
    [SExpr (ECall (EAttribute (EName "sublattice_A2") "plot") [] [])];
  Cell 84
    [SImportFrom "atomap.tools" "remove_atoms_from_image_using_2d_gaussian"];
  Cell 85
    [SAssign (EName "image_without_A2")
       (ECall (EName "remove_atoms_from_image_using_2d_gaussian")
          [EAttribute (EName "sublattice_A2") "image"; EName "sublattice_A2"] [])];
  Cell 87
    [SExpr (ECall (EAttribute (EName "sublattice_A2") "plot_planes") [] [])];
  Cell 89
    [SAssign (EName "zone_axis_001")
       (ESubscript (EAttribute (EName "sublattice_A2") "zones_axis_average_distances")
          (EInt 1));
     SExpr (EName "zone_axis_001")];
  Cell 91
    [SAssign (EName "initial_positions_B")
       (ECall (EAttribute (EName "sublattice_A2") "find_missing_atoms_from_zone_vector")
          [EName "zone_axis_001"] [])];
  Cell 93
    [SAssign (EName "sublattice_B2")
       (ECall (EAttribute (EName "am") "Sublattice") [EName "initial_positions_B"]
          [("image", EName "image_without_A2"); ("color", EStr "b"); ("name", EStr "B")])];
  Cell 94
    [SExpr (ECall (EAttribute (EName "sublattice_B2") "plot") [] [])];
  Cell 95
    [SExpr (ECall (EAttribute (EName "sublattice_B2") "find_nearest_neighbors") [] []);
     SExpr
       (ECall (EAttribute (EName "sublattice_B2") "refine_atom_positions_using_center_of_mass")
          [] []);
     SExpr
       (ECall (EAttribute (EName "sublattice_B2") "refine_atom_positions_using_2d_gaussian") []
          []);
     SExpr (ECall (EAttribute (EName "sublattice_B2") "construct_zone_axes") [] [])];
  Cell 97
    [SExpr (ECall (EAttribute (EName "sublattice_B2") "plot") [] [])];
  Cell 99
    [SExpr (ECall (EAttribute (EName "sublattice_B2") "plot_planes") [] [])];
  Cell 101
    [SAssign (EName "zone_axis_002")
       (ESubscript (EAttribute (EName "sublattice_B2") "zones_axis_average_distances")
          (EInt 0));
     SAssign (EName "O_positions")
       (ECall (EAttribute (EName "sublattice_B2") "find_missing_atoms_from_zone_vector")
          [EName "zone_axis_002"] []);
     SAssign (EName "image_without_AB")
       (ECall (EName "remove_atoms_from_image_using_2d_gaussian")
          [EAttribute (EName "sublattice_B2") "image"; EName "sublattice_B2"] []);
     SAssign (EName "sublattice_O")
       (ECall (EAttribute (EName "am") "Sublattice")
          [EName "O_positions"; EName "image_without_AB"]
          [("color", EStr "g"); ("name", EStr "O")])];
  Cell 103
    [SExpr (ECall (EAttribute (EName "sublattice_O") "plot") [] [])];
  Cell 105
    [SExpr (ECall (EAttribute (EName "sublattice_O") "construct_zone_axes") [] []);
     SExpr
       (ECall (EAttribute (EName "sublattice_O") "refine_atom_positions_using_center_of_mass")
          [] []);
     SExpr
       (ECall (EAttribute (EName "sublattice_O") "refine_atom_positions_using_2d_gaussian") []
          [])];
  Cell 106
    [SExpr (ECall (EAttribute (EName "sublattice_O") "plot") [] [])];
  Cell 109
    [SAssign (EName "atom_lattice")
       (ECall (EAttribute (EName "am") "Atom_Lattice") []
          [("image", EAttribute (EName "s_abf") "data");
           ("name", EStr "ABO3");
           ("sublattice_list", EList [EName "sublattice_A2"; EName "sublattice_B2"; EName "sublattice_O"])])];
  Cell 111
    [SExpr (ECall (EAttribute (EName "atom_lattice") "plot") [] [])];
  Cell 113
    [SExpr (ECall (EAttribute (EName "atom_lattice") "save") [] [("overwrite", EBool true)])];
  Cell 115
    [SAssign (EName "atom_lattice2")
       (ECall (EAttribute (EName "am") "load_atom_lattice_from_hdf5")
          [EStr "ABO3_atom_lattice.hdf5"] [])];
  Cell 117
    [SAssign (EName "sublattice_A")
       (ESubscript (EAttribute (EName "atom_lattice2") "sublattice_list") (EInt 0))];
  Cell 119
    [SAssign (EName "sublattice_O")
       (ESubscript (EAttribute (EName "atom_lattice2") "sublattice_list") (EInt 2))];
  Cell 121
    [SAssign (EName "s_o_atom_difference")
       (ECall (EAttribute (EName "sublattice_O") "get_atom_distance_difference_map") []
          [("add_zero_value_sublattice", EName "sublattice_A")])];
  Cell 123
    [SExpr (ECall (EAttribute (EName "s_o_atom_difference") "plot") [] [])];
  Cell 126
    [SAssign (EName "atom_lattice")
       (ECall
          (EAttribute (EAttribute (EName "am") "dummy_data")
             "get_polarization_film_atom_lattice")
          [] []);
     SExpr (ECall (EAttribute (EName "atom_lattice") "plot") [] [])];
  Cell 128
    [SAssign (EName "sublatticeA")
       (ESubscript (EAttribute (EName "atom_lattice") "sublattice_list") (EInt 0));
     SExpr (ECall (EAttribute (EName "sublatticeA") "construct_zone_axes") [] [])];
  Cell 130
    [SExpr (ECall (EAttribute (EName "sublatticeA") "plot_planes") [] [])];
  Cell 132
    [SAssign (EName "za0")
       (ESubscript (EAttribute (EName "sublatticeA") "zones_axis_average_distances") (EInt 0));
     SAssign (EName "za1")
       (ESubscript (EAttribute (EName "sublatticeA") "zones_axis_average_distances") (EInt 1));
     SAssign (EName "sublatticeB")
       (ESubscript (EAttribute (EName "atom_lattice") "sublattice_list") (EInt 1));
     SAssign (EName "s_polarization")
       (ECall (EAttribute (EName "sublatticeA") "get_polarization_from_second_sublattice")
          [EName "za0"; EName "za1"; EName "sublatticeB"] [])];
  Cell 134
    [SExpr (ECall (EAttribute (EName "s_polarization") "plot") [] []);
     SAssign (EName "vector_list")
       (EAttribute (EAttribute (EName "s_polarization") "metadata") "vector_list")]
].

(** [abTEM/atomic_models_with_ase.ipynb]. *)
Definition atomic_models_with_ase : list cell :=
[
  Cell 1
    [SMagic "%matplotlib inline";
     SImport "abtem" None;
     SImport "ase" None;
     SImport "matplotlib.pyplot" (Some "plt");
     SImport "numpy" (Some "np");
     SImportFrom "ase.visualize" "view"];
  Cell 3
    [SAssign (EName "atoms")
       (ECall (EAttribute (EName "ase") "Atoms") [EStr "N2"]
          [("positions", EList
              [ETuple [EFloat 0.0; EFloat 0.0; EFloat 0.0];
               ETuple [EFloat 1.0; EFloat 0.0; EFloat 0.0]]);
           ("cell", EList [EInt 6; EInt 6; EInt 6])])];
  Cell 5
    [SExpr (EAttribute (EName "atoms") "positions")];
  Cell 6
    [SExpr (EAttribute (EName "atoms") "numbers")];
  Cell 7
    [SExpr (EAttribute (EName "atoms") "cell")];
  Cell 8
    [SExpr (EAttribute (EName "atoms") "cell")];
  Cell 10
    [SExpr (EAttribute (EName "atoms") "numbers")];
  Cell 11
    [SAssign (ESubscript (EAttribute (EName "atoms") "numbers") (EInt 0)) (EInt 8)];
  Cell 13
    [SAugAssign (EName "atoms") Add
       (ECall (EAttribute (EName "ase") "Atoms") [EStr "N"]
          [("positions", EList [ETuple [EFloat 2.0; EInt 0; EInt 0]])]);
     SExpr (EName "atoms")];
  Cell 15
    [SExpr
       (ECall (EAttribute (EName "abtem") "show_atoms") [EName "atoms"]
          [("plane", EStr "xy")])];
  Cell 17
    [SImportFrom "ase.visualize" "view"; SExpr (ECall (EName "view") [EName "atoms"] [])];
  Cell 19
    [SAssign (EName "atom_pos")
       (EList
          [ETuple [EFloat 0.0; EFloat 0.0; EFloat 0.0];
           ETuple [EFloat 0.5; EFloat 0.5; EFloat 0.5];
           ETuple [EFloat 0.5; EFloat 0.5; EFloat 0.0]]);
     SAssign (EName "srtio3")
       (ECall (EAttribute (EAttribute (EName "ase") "spacegroup") "crystal")
          [EList [EStr "Sr"; EStr "Ti"; EStr "O"]; EName "atom_pos"]
          [("spacegroup", EInt 221);
           ("cellpar", EFloat 3.905);
           ("size", ETuple [EInt 1; EInt 1; EInt 1])]);
     SExpr
       (ECall (EAttribute (EName "abtem") "show_atoms")
          [EBinOp (EName "srtio3") Mult (ETuple [EInt 3; EInt 3; EInt 3])]
          [("legend", EBool true)])];
  Cell 21
    [SImportFrom "ase.build" "surface";
     SAssign (EName "srtio3_110")
       (ECall (EName "surface") [EName "srtio3"]
          [("indices", ETuple [EInt 1; EInt 1; EInt 0]);
           ("layers", EInt 2);
           ("periodic", EBool true)]);
     SExpr
       (ECall (EAttribute (EName "abtem") "show_atoms") [EName "srtio3_110"]
          [("plane", EStr "xy"); ("legend", EBool true)])];
  Cell 23
    [SExpr (ECall (EAttribute (EName "srtio3_110") "wrap") [] []);
     SExpr
       (ECall (EAttribute (EName "abtem") "show_atoms") [EName "srtio3_110"]
          [("plane", EStr "xy"); ("legend", EBool true); ("show_periodic", EBool true)])];
  Cell 25
    [SAssign (EName "repeated_srtio3") (ECall (EAttribute (EName "srtio3_110") "copy") [] []);
     SAugAssign (EName "repeated_srtio3") Mult (ETuple [EInt 3; EInt 4; EInt 10]);
     SExpr
       (ECall (EAttribute (EName "abtem") "show_atoms") [EName "repeated_srtio3"]
          [("legend", EBool true)])];
  Cell 27
    [SExpr
       (ECall (EAttribute (EName "abtem") "show_atoms") [EName "repeated_srtio3"]
          [("legend", EBool true); ("plane", EStr "xz")])];
  Cell 29
    [SAssign (EName "sto_lto") (ECall (EAttribute (EName "repeated_srtio3") "copy") [] []);
     SAssign (EName "mask") (ECompare (EAttribute (EName "sto_lto") "symbols") Eq (EStr "Sr"));
     SAssign (EName "mask")
       (EBinOp (EName "mask") Mult
          (ECompare
             (ESubscript (EAttribute (EName "sto_lto") "positions")
                (ETuple [ESlice None None; EInt 1]))
             Lt (EFloat 7.5)));
     SAssign (ESubscript (EAttribute (EName "sto_lto") "numbers") (EName "mask")) (EInt 57)];
  Cell 31
    [SExpr
       (ECall (EAttribute (EName "sto_lto") "center") []
          [("axis", EInt 2); ("vacuum", EInt 5)]);
     SAssign (ETuple [EName "fig"; ETuple [EName "ax1"; EName "ax2"]])
       (ECall (EAttribute (EName "plt") "subplots") [EInt 1; EInt 2]
          [("figsize", ETuple [EInt 8; EInt 4])]);
     SExpr
       (ECall (EAttribute (EName "abtem") "show_atoms") [EName "sto_lto"]
          [("ax", EName "ax1")]);
     SExpr
       (ECall (EAttribute (EName "abtem") "show_atoms") [EName "sto_lto"]
          [("ax", EName "ax2"); ("plane", EStr "yz"); ("legend", EBool true)])];
  Cell 33
    [SImportFrom "ase.io" "write";
     SExpr (ECall (EName "write") [EStr "sto_lto.cif"; EName "sto_lto"] [])];
  Cell 35
    [SAssign (EName "sto_lto")
       (ECall (EAttribute (EAttribute (EName "ase") "io") "read") [EStr "sto_lto.cif"] [])];
  Cell 37
    [SAssign (EName "graphene")
       (ECall (EAttribute (EAttribute (EName "ase") "build") "graphene") []
          [("vacuum", EInt 4)]);
     SExpr
       (ECall (EAttribute (EName "abtem") "show_atoms")
          [EBinOp (EName "graphene") Mult (ETuple [EInt 4; EInt 4; EInt 1])] [])];
  Cell 39
    [SAssign (ETuple [EName "orthogonal_graphene"; EName "transform"])
       (ECall (EAttribute (EName "abtem") "orthogonalize_cell") [EName "graphene"]
          [("return_transform", EBool true)]);
     SExpr
       (ECall (EAttribute (EName "abtem") "show_atoms")
          [EBinOp (EName "orthogonal_graphene") Mult (ETuple [EInt 5; EInt 3; EInt 1])]
          [])];
  Cell 40
    [SImportFrom "abtem.atoms" "pretty_print_transform";
     SExpr (ECall (EName "pretty_print_transform") [EName "transform"] [])];
  Cell 43
    [SExpr
       (ECall (EAttribute (EName "abtem") "show_atoms") [EName "srtio3"]
          [("plane", EStr "xz")])];
  Cell 44
    [SAssign (EName "repeated_srtio3")
       (EBinOp (EName "srtio3") Mult (ETuple [EInt 1; EInt 1; EInt 8]));
     SAssign (ETuple [EName "fig"; ETuple [EName "ax1"; EName "ax2"]])
       (ECall (EAttribute (EName "plt") "subplots") [EInt 1; EInt 2]
          [("figsize", ETuple [EInt 6; EInt 4])]);
     SExpr
       (ECall (EAttribute (EName "abtem") "show_atoms") [EName "repeated_srtio3"]
          [("ax", EName "ax1"); ("title", EStr "Beam view")]);
     SExpr
       (ECall (EAttribute (EName "abtem") "show_atoms") [EName "repeated_srtio3"]
          [("ax", EName "ax2"); ("plane", EStr "xz"); ("title", EStr "Side view")]);
     SExpr (ECall (EAttribute (EName "fig") "tight_layout") [] [])];
  Cell 45
    [SAssign (EName "rotated_srtio3_1")
       (ECall (EAttribute (EName "repeated_srtio3") "copy") [] []);
     SExpr
       (ECall (EAttribute (EName "rotated_srtio3_1") "rotate")
          [EBinOp (EFloat 8.8) Div (EInt 2); EStr "z"] [("rotate_cell", EBool true)]);
     SAssign (EName "rotated_srtio3_2")
       (ECall (EAttribute (EName "repeated_srtio3") "copy") [] []);
     SExpr
       (ECall (EAttribute (EName "rotated_srtio3_2") "rotate")
          [EBinOp (EUnaryOp USub (EFloat 8.8)) Div (EInt 2); EStr "z"]
          [("rotate_cell", EBool true)]);
     SAssign (ETuple [EName "fig"; ETuple [EName "ax1"; EName "ax2"]])
       (ECall (EAttribute (EName "plt") "subplots") [EInt 1; EInt 2]
          [("figsize", ETuple [EInt 10; EInt 4])]);
     SExpr
       (ECall (EAttribute (EName "abtem") "show_atoms") [EName "rotated_srtio3_1"]
          [("title", EStr "Positive rotation"); ("ax", EName "ax1")]);
     SExpr
       (ECall (EAttribute (EName "abtem") "show_atoms") [EName "rotated_srtio3_2"]
          [("title", EStr "Negative rotation"); ("ax", EName "ax2")])];
  Cell 46
    [SImportFrom "abtem.atoms" "pretty_print_transform";
     SAssign (EName "maxreps") (EInt 12);
     SAssign (ETuple [EName "atoms_top"; EName "transform1"])
       (ECall (EAttribute (EName "abtem") "orthogonalize_cell") [EName "rotated_srtio3_1"]
          [("max_repetitions", EName "maxreps"); ("return_transform", EBool true)]);
     SAssign (ETuple [EName "atoms"; EName "transform2"])
       (ECall (EAttribute (EName "abtem") "orthogonalize_cell") [EName "rotated_srtio3_2"]
          [("max_repetitions", EName "maxreps"); ("return_transform", EBool true)]);
     SAssign (EName "atoms_bottom") (ECall (EAttribute (EName "atoms") "copy") [] []);
     SExpr
       (ECall (EAttribute (EName "atoms_bottom") "translate")
          [EList
             [EInt 0;
              EInt 0;
              EUnaryOp USub
                (ESubscript (EAttribute (EName "atoms_top") "cell")
                   (ETuple [EInt 2; EInt 2]))]]
          []);
     SExpr (ECall (EName "pretty_print_transform") [EName "transform1"] []);
     SExpr (ECall (EName "pretty_print_transform") [EName "transform2"] []);
     SExpr
       (ECall (EAttribute (EName "abtem") "show_atoms") [EName "atoms"]
          [("title", EStr "Beam view"); ("plane", EStr "xz")])];
  Cell 47
    [SAssign (EName "combined") (EBinOp (EName "atoms_top") Add (EName "atoms_bottom"));
     SAugAssign (ESubscript (EAttribute (EName "combined") "cell") (ETuple [EInt 2; EInt 2]))
       Mult (EInt 2);
     SExpr
       (ECall (EAttribute (EName "combined") "center") []
          [("axis", EInt 2); ("vacuum", EInt 4)]);
     SAssign (ETuple [EName "fig"; ETuple [EName "ax1"; EName "ax2"]])
       (ECall (EAttribute (EName "plt") "subplots") [EInt 1; EInt 2]
          [("figsize", ETuple [EInt 12; EInt 6])]);
     SExpr
       (ECall (EAttribute (EName "abtem") "show_atoms") [EName "combined"]
          [("ax", EName "ax1"); ("title", EStr "Beam view"); ("scale", EFloat 0.4)]);
     SExpr
       (ECall (EAttribute (EName "abtem") "show_atoms") [EName "combined"]
          [("ax", EName "ax2");
           ("plane", EStr "xz");
           ("title", EStr "Side view");
           ("scale", EFloat 0.4)]);
     SExpr (ECall (EAttribute (EName "fig") "tight_layout") [] [])]
].

Local Close Scope Q_scope.

(** ** Part 2. Reading the syntax *)

(** The code cells of the repository, Atomap tutorial first. *)
Definition code_cells : list cell := atomap_tutorial ++ atomic_models_with_ase.

(** The statements written at the top level of the cells of a notebook. *)
Definition statements (nb : list cell) : list stmt := flat_map source nb.

(** A statement with every statement nested in it, at any depth. *)
Fixpoint substmts (s : stmt) : list stmt :=
  s :: match s with
       | SFunctionDef _ _ b | SClassDef _ b | SWhile _ b | SFor _ _ b | SWith _ b =>
           flat_map substmts b
       | SIf _ b o => flat_map substmts b ++ flat_map substmts o
       | STry b _ h f =>
           flat_map substmts b ++ flat_map substmts h ++ flat_map substmts f
       | _ => []
       end.

(** An expression with every expression nested in it. *)
Fixpoint subexprs (e : expr) : list expr :=
  e :: match e with
       | EAttribute v _ => subexprs v
       | ECall f args kws =>
           subexprs f ++ flat_map subexprs args
             ++ flat_map (fun kw => subexprs (snd kw)) kws
       | ESubscript v i => subexprs v ++ subexprs i
       | ESlice lo hi =>
           match lo with Some x => subexprs x | None => [] end
             ++ match hi with Some x => subexprs x | None => [] end
       | ETuple es | EList es => flat_map subexprs es
       | EBinOp l _ r | ECompare l _ r => subexprs l ++ subexprs r
       | EUnaryOp _ x => subexprs x
       | _ => []
       end.

(** The expressions a statement holds itself (not those of nested statements). *)
Definition own_exprs (s : stmt) : list expr :=
  match s with
  | SAssign t v | SAugAssign t _ v => [t; v]
  | SExpr v | SReturn v | SRaise v => [v]
  | SIf t _ _ | SWhile t _ => [t]
  | SFor t i _ => [t; i]
  | SWith i _ => [i]
  | STry _ (Some t) _ _ => [t]
  | _ => []
  end.

(** Every expression occurring in a statement, at any depth. *)
Definition exprs_of (s : stmt) : list expr :=
  flat_map subexprs (flat_map own_exprs (substmts s)).

Definition is_functiondef (s : stmt) : bool :=
  match s with SFunctionDef _ _ _ => true | _ => false end.

Definition is_classdef (s : stmt) : bool :=
  match s with SClassDef _ _ => true | _ => false end.

(** Branching, looping and exception statements. *)
Definition is_control (s : stmt) : bool :=
  match s with
  | SIf _ _ _ | SWhile _ _ | SFor _ _ _ | SWith _ _ | STry _ _ _ _ | SRaise _ => true
  | _ => false
  end.

(** Arithmetic and comparison written in the cell itself. *)
Definition is_operator (e : expr) : bool :=
  match e with
  | EBinOp _ _ _ | EUnaryOp _ _ | ECompare _ _ _ => true
  | _ => false
  end.

Definition is_augassign (s : stmt) : bool :=
  match s with SAugAssign _ _ _ => true | _ => false end.

(** The indices of the cells of [nb] that hold a statement satisfying [p]. *)
Definition cells_with (p : stmt -> bool) (nb : list cell) : list nat :=
  map index (filter (fun c => existsb p (source c)) nb).

(** The identifiers an expression is built from: variable names and
    attribute names. *)
Definition identifier (e : expr) : option string :=
  match e with
  | EName x => Some x
  | EAttribute _ a => Some a
  | _ => None
  end.

(** [mentions h s]: the identifier [h] occurs in [s], as a name, an attribute
    or the name of a definition. *)
Definition mentions (h : string) (s : stmt) : bool :=
  existsb (fun e => bool_decide (identifier e = Some h)) (exprs_of s)
  || existsb (fun x => match x with
                       | SFunctionDef n _ _ | SClassDef n _ => bool_decide (n = h)
                       | SImportFrom _ n => bool_decide (n = h)
                       | _ => false
                       end) (substmts s).

(** [single_call h s]: the statement is one call [x.h(...)] on a name [x],
    as an expression statement or the right-hand side of an assignment, and
    [h] occurs nowhere else in it. *)
Definition is_method_call (h : string) (e : expr) : bool :=
  match e with
  | ECall (EAttribute (EName _) a) args kws =>
      bool_decide (a = h)
      && forallb (fun e' => negb (bool_decide (identifier e' = Some h)))
           (flat_map subexprs args ++ flat_map (fun kw => subexprs (snd kw)) kws)
  | _ => false
  end.

Definition single_call (h : string) (s : stmt) : bool :=
  match s with
  | SExpr v => is_method_call h v
  | SAssign t v =>
      is_method_call h v
      && forallb (fun e' => negb (bool_decide (identifier e' = Some h))) (subexprs t)
  | _ => false
  end.

(** The first component of a dotted module path: the installed package. *)
Fixpoint root_package (m : string) : string :=
  match m with
  | EmptyString => EmptyString
  | String c rest =>
      if Ascii.eqb c "."%char then EmptyString else String c (root_package rest)
  end.

(** The packages a statement imports. *)
Definition imported_packages (s : stmt) : list string :=
  match s with
  | SImport m _ | SImportFrom m _ => [root_package m]
  | _ => []
  end.

(** The name an import statement binds in the session. *)
Definition import_binds (s : stmt) : list string :=
  match s with
  | SImport m None => [root_package m]
  | SImport _ (Some a) => [a]
  | SImportFrom _ n => [n]
  | _ => []
  end.

(** The variable names an assignment target binds. *)
Fixpoint target_binds (t : expr) : list string :=
  match t with
  | EName x => [x]
  | ETuple es | EList es => flat_map target_binds es
  | _ => []
  end.

(** The names read by an expression: the [EName] leaves. *)
Definition names_read (e : expr) : list string :=
  flat_map (fun x => match x with EName n => [n] | _ => [] end) (subexprs e).

(** The expressions a statement reads: all it holds, except a plain
    assignment target, which is written. *)
Definition reads (s : stmt) : list expr :=
  match s with
  | SAssign (EName _ | ETuple _ | EList _) v => [v]
  | _ => own_exprs s
  end.

(** The names a statement binds: by import, by assignment or by definition. *)
Definition binds (s : stmt) : list string :=
  match s with
  | SAssign t _ => target_binds t
  | SFunctionDef n _ _ | SClassDef n _ => [n]
  | _ => import_binds s
  end.

(** [unbound bound ss]: the names that the statements [ss], run in order, read
    before anything bound them, starting from the names [bound].  The
    parameters of a function are bound in its body. *)
Fixpoint unbound_in (bound : list string) (s : stmt) : list string :=
  filter (fun n => negb (bool_decide (n ∈ bound))) (flat_map names_read (reads s))
  ++ match s with
     | SFunctionDef _ ps b =>
         (fix go (bd : list string) (l : list stmt) : list string :=
            match l with
            | [] => []
            | x :: l' => unbound_in bd x ++ go (binds x ++ bd) l'
            end) (ps ++ bound) b
     | _ => []
     end.

Fixpoint unbound (bound : list string) (ss : list stmt) : list string :=
  match ss with
  | [] => []
  | s :: rest => unbound_in bound s ++ unbound (binds s ++ bound) rest
  end.

(** A name that its library means to keep to itself starts with an underscore. *)
Definition is_private (x : string) : bool :=
  match x with
  | String c _ => Ascii.eqb c "_"%char
  | EmptyString => false
  end.

(** The components the specification names, and the packages that make up
    each: HyperSpy is the signal layer Atomap is built on, ASE the structure
    layer abTEM is built on. *)
Inductive component := ColumnAnalysis | StructureSimulation | Plotting.

Definition component_of (package : string) : option component :=
  if bool_decide (package = "atomap") || bool_decide (package = "hyperspy")
  then Some ColumnAnalysis
  else if bool_decide (package = "abtem") || bool_decide (package = "ase")
  then Some StructureSimulation
  else if bool_decide (package = "matplotlib") then Some Plotting
  else None.

(** The three operations singled out as the hardest: Gaussian peak fitting,
    zone-axis construction and cell orthogonalization. *)
Definition hardest_operations : list string :=
  ["refine_atom_positions_using_2d_gaussian"; "construct_zone_axes";
   "orthogonalize_cell"].

(** The packages the notebooks import, in order of first import. *)
Definition packages : list string :=
  ["hyperspy"; "atomap"; "abtem"; "ase"; "matplotlib"; "numpy"].

(** A statement that is one method call [x.m(...)] on a name: the receiver
    and the method. *)
Definition method_call (s : stmt) : option (string * string) :=
  match s with
  | SExpr (ECall (EAttribute (EName x) m) _ _) => Some (x, m)
  | _ => None
  end.

(** [since_binding x before]: the methods called on [x], by statements of
    their own, since [x] was last bound.  [before] holds the statements run
    so far, the latest first. *)
Fixpoint since_binding (x : string) (before : list stmt) : list string :=
  match before with
  | [] => []
  | s :: rest =>
      if bool_decide (x ∈ binds s) then []
      else match method_call s with
           | Some (y, m) =>
               if bool_decide (y = x) then m :: since_binding x rest
               else since_binding x rest
           | None => since_binding x rest
           end
  end.

(** The order the tutorial asks for: a Gaussian refinement comes after a
    centre-of-mass refinement of the same sublattice, and a centre-of-mass
    refinement after a neighbour search, which [construct_zone_axes] also
    runs. *)
Definition refinement_in_order (before : list stmt) (s : stmt) : bool :=
  match method_call s with
  | Some (x, m) =>
      if bool_decide (m = "refine_atom_positions_using_2d_gaussian")
      then bool_decide ("refine_atom_positions_using_center_of_mass"
                          ∈ since_binding x before)
      else if bool_decide (m = "refine_atom_positions_using_center_of_mass")
      then bool_decide ("find_nearest_neighbors" ∈ since_binding x before)
           || bool_decide ("construct_zone_axes" ∈ since_binding x before)
      else true
  | None => true
  end.

(** [checked_in_order p before ss]: every statement of [ss] passes [p], given
    the statements run before it. *)
Fixpoint checked_in_order (p : list stmt -> stmt -> bool)
    (before ss : list stmt) : bool :=
  match ss with
  | [] => true
  | s :: rest => p before s && checked_in_order p (s :: before) rest
  end.

(** The names a notebook binds by import, and those it binds by assignment,
    by definition or as a parameter, at any depth. *)
Definition imported_names (nb : list cell) : list string :=
  flat_map import_binds (flat_map substmts (statements nb)).

Definition assigned_names (nb : list cell) : list string :=
  flat_map (fun s => match s with
                     | SAssign t _ | SAugAssign t _ _ | SFor t _ _ => target_binds t
                     | SFunctionDef n ps _ => n :: ps
                     | SClassDef n _ => [n]
                     | _ => []
                     end)
    (flat_map substmts (statements nb)).

(** The two notebooks; each is a session of its own. *)
Definition notebooks : list (list cell) := [atomap_tutorial; atomic_models_with_ase].

(** The functions a notebook defines. *)
Definition defined_functions (nb : list cell) : list string :=
  flat_map (fun s => match s with SFunctionDef n _ _ => [n] | _ => [] end)
    (flat_map substmts (statements nb)).

Definition is_call (e : expr) : bool :=
  match e with ECall _ _ _ => true | _ => false end.

(** An operand: an expression that holds no call and no operator. *)
Definition is_operand (e : expr) : bool :=
  forallb (fun x => negb (is_call x || is_operator x)) (subexprs e).

(** A literal: numbers, strings and booleans, and tuples and lists of them. *)
Definition is_literal (e : expr) : bool :=
  forallb (fun x => match x with
                    | EStr _ | EInt _ | EFloat _ | EBool _ | ETuple _ | EList _ => true
                    | _ => false
                    end) (subexprs e).

(** A dotted path [x.a.b], and an access: a path that may also index,
    [x.a[i].b], with operands as indices. *)
Fixpoint is_path (e : expr) : bool :=
  match e with
  | EName _ => true
  | EAttribute v _ => is_path v
  | _ => false
  end.

Fixpoint is_access (e : expr) : bool :=
  match e with
  | EName _ => true
  | EAttribute v _ => is_access v
  | ESubscript v i => is_access v && is_operand i
  | _ => false
  end.

(** The name an access starts from. *)
Fixpoint root (e : expr) : option string :=
  match e with
  | EName x => Some x
  | EAttribute v _ | ESubscript v _ => root v
  | _ => None
  end.

(** A plain call [x.a.b(operands)]: its callee. *)
Definition plain_call (e : expr) : option expr :=
  match e with
  | ECall f args kws =>
      if is_path f && forallb is_operand args
         && forallb (fun kw => is_operand (snd kw)) kws
      then Some f else None
  | _ => None
  end.

(** What a statement of a cell is. *)
Inductive kind :=
| KMagic
| KImport
| KDef
| KLibraryCall
| KMethodCall
| KLocalCall
| KRead
| KLiteral
| KStore
| KReturn
| KOperator
| KOther.

#[local] Instance kind_eq_dec : EqDecision kind.
Proof. solve_decision. Defined.

(** A plain call is a library call when its callee starts from an imported
    name, a local call when it is a function the notebook defines, and a
    method call when it is an attribute of anything else: a variable or a
    parameter. *)
Definition call_kind (nb : list cell) (f : expr) : kind :=
  match root f with
  | Some r =>
      if bool_decide (r ∈ imported_names nb) then KLibraryCall
      else match f with
           | EName _ => if bool_decide (r ∈ defined_functions nb) then KLocalCall else KOther
           | _ => KMethodCall
           end
  | None => KOther
  end.

(** The kind of a value that is displayed or assigned to names. *)
Definition value_kind (nb : list cell) (v : expr) : kind :=
  match plain_call v with
  | Some f => call_kind nb f
  | None => if is_access v then KRead else if is_literal v then KLiteral else KOther
  end.

Definition is_name_target (t : expr) : bool :=
  forallb (fun x => match x with EName _ | ETuple _ | EList _ => true | _ => false end)
    (subexprs t).

Definition kind_of (nb : list cell) (s : stmt) : kind :=
  match s with
  | SMagic _ => KMagic
  | SImport _ _ | SImportFrom _ _ => KImport
  | SFunctionDef _ _ _ => KDef
  | SAugAssign _ _ _ => KOperator
  | SExpr v =>
      if existsb is_operator (subexprs v) then KOperator
      else match value_kind nb v with KLiteral => KOther | k => k end
  | SAssign t v =>
      if existsb is_operator (subexprs t ++ subexprs v) then KOperator
      else if is_name_target t then value_kind nb v
      else match t with
           | ESubscript _ _ => if is_access t && is_operand v then KStore else KOther
           | _ => KOther
           end
  | SReturn v => if is_operand v then KReturn else KOther
  | _ => KOther
  end.

(** The cells of a notebook holding a statement of kind [k]. *)
Definition cells_of_kind (k : kind) (nb : list cell) : list nat :=
  cells_with (fun s => bool_decide (kind_of nb s = k)) nb.

(** The reading of "every cell consists only of calls into external
    libraries": setting the session up apart (magics and imports), every
    statement is a plain call into a library or on an object. *)
Definition calls_library_only (nb : list cell) (s : stmt) : bool :=
  bool_decide (kind_of nb s ∈ [KMagic; KImport; KLibraryCall; KMethodCall]).

(** An operator applied to literals alone. *)
Definition is_literal_operator (e : expr) : bool :=
  is_operator e
  && forallb (fun x => negb (bool_decide (is_Some (root x)) || is_call x)) (subexprs e).

(** [from_library before x]: the object [x] names came out of a library.  The
    latest statement of [before] (latest first) that binds [x] is an import,
    or assigns a plain call or an access that starts from a name which itself
    came out of a library. *)
Fixpoint from_library (before : list stmt) (x : string) : bool :=
  match before with
  | [] => false
  | s :: rest =>
      if bool_decide (x ∈ binds s) then
        match s with
        | SImport _ _ | SImportFrom _ _ => true
        | SAssign _ v =>
            match (match plain_call v with
                   | Some f => root f
                   | None => if is_access v then root v else None
                   end) with
            | Some r => from_library rest r
            | None => false
            end
        | _ => false
        end
      else from_library rest x
  end.

(** The receiver of a statement that is one call [x.h(...)]. *)
Definition receiver (s : stmt) : option string :=
  match s with
  | SExpr (ECall (EAttribute (EName x) _) _ _)
  | SAssign _ (ECall (EAttribute (EName x) _) _ _) => Some x
  | _ => None
  end.

(** A statement mentioning [h] is one call [x.h(...)] on an object that came
    out of a library. *)
Definition library_call_of (h : string) (before : list stmt) (s : stmt) : bool :=
  implb (mentions h s)
    (single_call h s
     && match receiver s with Some x => from_library before x | None => false end).

(** The operator expressions a notebook writes, and its in-place operators. *)
Definition operators_written (nb : list cell) : list expr :=
  filter is_operator (flat_map exprs_of (statements nb)).

Definition augassigns_written (nb : list cell) : list stmt :=
  filter is_augassign (flat_map substmts (statements nb)).

(** The package an imported name comes from. *)
Definition package_of (nb : list cell) (x : string) : option string :=
  head (flat_map (fun s => if bool_decide (x ∈ import_binds s)
                           then imported_packages s else [])
          (flat_map substmts (statements nb))).

(** The callees of every call a notebook makes, at any depth. *)
Definition callees (nb : list cell) : list expr :=
  flat_map (fun e => match e with ECall f _ _ => [f] | _ => [] end)
    (flat_map exprs_of (statements nb)).

(** A callee reaches one of the three components, or an object of the
    session: it starts from a name imported from a package of a component,
    or from a name the notebook binds itself. *)
Definition within_components (nb : list cell) (f : expr) : bool :=
  match root f with
  | Some r =>
      match package_of nb r with
      | Some p => bool_decide (is_Some (component_of p))
      | None => bool_decide (r ∈ assigned_names nb)
      end
  | None => false
  end.

(** The attributes through which the libraries hand out NumPy arrays: the
    data of a signal, and the numbers, positions and cell of a structure. *)
Definition array_attributes : list string := ["data"; "numbers"; "positions"; "cell"].

(** A statement that applies an operator or an item store to such an array. *)
Definition operates_on_array (nb : list cell) (s : stmt) : bool :=
  (bool_decide (kind_of nb s = KOperator) || bool_decide (kind_of nb s = KStore))
  && existsb (fun e => match e with
                       | EAttribute _ a => bool_decide (a ∈ array_attributes)
                       | _ => false
                       end) (exprs_of s).

(** ** Part 3. The kernel *)

(** Running a statement changes the session state and either completes or
    raises.  The state at the raise is kept: what ran before an error stays
    done. *)
Inductive result (State exn A : Type) :=
| Done (a : A) (st : State)
| Raised (e : exn) (st : State).

Arguments Done {State exn A} a st.
Arguments Raised {State exn A} e st.

(** What the interpreter and the libraries do, left open: the effect of a
    simple statement (every library call happens inside one), the truth of a
    test, the next item of an iteration, entering and leaving a context
    manager ([leave] answers whether it swallowed the exception), and whether
    an [except] clause matches. *)
Record kernel (State exn : Type) := Kernel {
  simple : stmt -> State -> result State exn unit;
  truth : expr -> State -> result State exn bool;
  next : expr -> expr -> State -> result State exn bool;
  enter : expr -> State -> result State exn unit;
  leave : expr -> option exn -> State -> result State exn bool;
  catches : option expr -> exn -> State -> bool
}.

Arguments simple {State exn} k s st.
Arguments truth {State exn} k e st.
Arguments next {State exn} k target iter st.
Arguments enter {State exn} k e st.
Arguments leave {State exn} k e raised st.
Arguments catches {State exn} k type e st.

Section Exec.
Context {State exn : Type} (k : kernel State exn).

(** [exec fuel s st]: run one statement.  [fuel] bounds the iterations of
    each loop; [None] means a loop was still running when it ran out.
    [break], [continue] and the [else] clause of a loop are left out. *)
Fixpoint exec (fuel : nat) (s : stmt) (st : State) {struct s}
  : option (result State exn unit) :=
  let block :=
    fix block (l : list stmt) (st : State) : option (result State exn unit) :=
      match l with
      | [] => Some (Done tt st)
      | x :: l' =>
          match exec fuel x st with
          | Some (Done _ st') => block l' st'
          | r => r
          end
      end in
  match s with
  | SIf t b o =>
      match truth k t st with
      | Done c st' => block (if c then b else o) st'
      | Raised e st' => Some (Raised e st')
      end
  | SWhile t b =>
      (fix loop (n : nat) (st : State) : option (result State exn unit) :=
         match n with
         | O => None
         | S n' =>
             match truth k t st with
             | Done true st' =>
                 match block b st' with
                 | Some (Done _ st'') => loop n' st''
                 | r => r
                 end
             | Done false st' => Some (Done tt st')
             | Raised e st' => Some (Raised e st')
             end
         end) fuel st
  | SFor t i b =>
      (fix loop (n : nat) (st : State) : option (result State exn unit) :=
         match n with
         | O => None
         | S n' =>
             match next k t i st with
             | Done true st' =>
                 match block b st' with
                 | Some (Done _ st'') => loop n' st''
                 | r => r
                 end
             | Done false st' => Some (Done tt st')
             | Raised e st' => Some (Raised e st')
             end
         end) fuel st
  | SWith i b =>
      match enter k i st with
      | Done _ st' =>
          match block b st' with
          | Some (Done _ st'') =>
              match leave k i None st'' with
              | Done _ st3 => Some (Done tt st3)
              | Raised e st3 => Some (Raised e st3)
              end
          | Some (Raised e st'') =>
              match leave k i (Some e) st'' with
              | Done true st3 => Some (Done tt st3)
              | Done false st3 => Some (Raised e st3)
              | Raised e' st3 => Some (Raised e' st3)
              end
          | None => None
          end
      | Raised e st' => Some (Raised e st')
      end
  | STry b ty h f =>
      let finally (r : result State exn unit) :=
        match r with
        | Done _ st' => block f st'
        | Raised e st' =>
            match block f st' with
            | Some (Done _ st'') => Some (Raised e st'')
            | r' => r'
            end
        end in
      match block b st with
      | Some (Done _ st') => finally (Done tt st')
      | Some (Raised e st') =>
          if catches k ty e st'
          then match block h st' with
               | Some r => finally r
               | None => None
               end
          else finally (Raised e st')
      | None => None
      end
  | _ => Some (simple k s st)
  end.

(** Statements run one after another; the first that raises ends the run. *)
Fixpoint exec_block (fuel : nat) (ss : list stmt) (st : State)
  : option (result State exn unit) :=
  match ss with
  | [] => Some (Done tt st)
  | s :: rest =>
      match exec fuel s st with
      | Some (Done _ st') => exec_block fuel rest st'
      | r => r
      end
  end.

(** Running a cell runs its statements. *)
Definition run_cell (fuel : nat) (c : cell) (st : State)
  : option (result State exn unit) :=
  exec_block fuel (source c) st.

End Exec.

(** The files the notebooks read: the two images and the exported structure. *)
Definition input_files : list string :=
  ["ADF_image.hspy"; "ABF_image.hspy"; "sto_lto.cif"].

(** [x = f("name")] for one of these files: [hs.load] and [ase.io.read]. *)
Definition opens_input (s : stmt) : bool :=
  match s with
  | SAssign _ (ECall _ [EStr f] []) => bool_decide (f ∈ input_files)
  | _ => false
  end.

(** A kernel in which the input files are missing: the state is the list of
    the statements that completed, and opening an input file raises. *)
Definition missing_files : kernel (list stmt) string :=
  {| simple s st :=
       if opens_input s then Raised "FileNotFoundError" st else Done tt (st ++ [s]);
     truth _ st := Done true st;
     next _ _ st := Done false st;
     enter _ st := Done tt st;
     leave _ _ st := Done false st;
     catches _ _ _ := true |}.

(** ** Part 4. The computations the notebooks write themselves *)

(** *** [get_live_fft] (Atomap tutorial, cell 18) *)

Module LiveFFT.

(** A computation in the session: it reads and changes the store of Python
    objects and completes with a value or raises. *)
Definition M (Store exn A : Type) : Type := Store -> result Store exn A.

Definition ret {Store exn A} (a : A) : M Store exn A := fun st => Done a st.

Definition bind {Store exn A B} (m : M Store exn A) (f : A -> M Store exn B)
  : M Store exn B :=
  fun st =>
    match m st with
    | Done a st' => f a st'
    | Raised e st' => Raised e st'
    end.

Notation "x <- m ;; k" := (bind m (fun x => k))
  (at level 100, m at next level, right associativity).

(** The part of HyperSpy the function calls.  Objects are references into
    the store; a bound method such as [s_roi.fft] is its receiver with the
    method's name; [data] reads the array a signal holds. *)
Record hyperspy (Store obj exn array : Type) := HyperSpy {
  RectangularROI : M Store exn obj;
  plot : obj -> list (string * bool) -> M Store exn unit;
  roi_interactive : obj -> obj -> M Store exn obj;
  interactive : obj * string -> list (string * bool) -> M Store exn obj;
  data : obj -> Store -> option array
}.

Arguments RectangularROI {Store obj exn array} h.
Arguments plot {Store obj exn array} h s kwargs.
Arguments roi_interactive {Store obj exn array} h roi s.
Arguments interactive {Store obj exn array} h f kwargs.
Arguments data {Store obj exn array} h s st.

Section GetLiveFFT.
Context {Store obj exn array : Type} (hs : hyperspy Store obj exn array).

Definition get_live_fft (s : obj) : M Store exn obj :=
  roi <- RectangularROI hs ;;
  _ <- plot hs s [] ;;
  s_roi <- roi_interactive hs roi s ;;
  s_fft <- interactive hs (s_roi, "fft") [("shift", true)] ;;
  _ <- plot hs s_fft [("power_spectrum", true)] ;;
  ret s_fft.

(** [m] leaves the array of the signal [s] as it found it. *)
Definition preserves_data {A} (s : obj) (m : M Store exn A) : Prop :=
  forall st a st' d, data hs s st = Some d -> m st = Done a st' -> data hs s st' = Some d.

End GetLiveFFT.

(** A small library to run the function on: the store is the list of the
    arrays allocated so far, an object is its position in it, cropping keeps
    the first two rows and columns, and the transform is a stand-in. *)
Definition alloc (a : list (list Z)) : M (list (list (list Z))) string nat :=
  fun st => Done (length st) (st ++ [a]).

Definition toy : hyperspy (list (list (list Z))) nat string (list (list Z)) :=
  {| RectangularROI := alloc [];
     plot _ _ := ret tt;
     roi_interactive _ s := fun st =>
       match st !! s with
       | Some a => alloc (take 2 (map (take 2) a)) st
       | None => Raised "AttributeError" st
       end;
     interactive f kw := fun st =>
       match st !! f.1 with
       | Some a => alloc (map (@rev Z) a) st
       | None => Raised "AttributeError" st
       end;
     data s st := st !! s |}.

End LiveFFT.

(** *** The ABF contrast inversion (Atomap tutorial, cell 75) *)

Module Inversion.

(** A pixel is an IEEE 754 binary64 number, NumPy's [float64]: [1 / array]
    divides in [float64] (integer data are converted to it first) and rounds
    to nearest.  With NumPy's default error state a division by zero warns
    and yields an infinity: nothing is raised, so the quotient is total. *)
Definition true_divide (a b : float) : float := (a / b)%float.

(** A scalar divided by an image: the scalar is broadcast to every pixel. *)
Definition scalar_divide (a : float) (image : list (list float)) : list (list float) :=
  map (map (true_divide a)) image.

(** [data_abf_invert = 1 / s_abf.data] *)
Definition data_abf_invert (s_abf_data : list (list float)) : list (list float) :=
  scalar_divide 1%float s_abf_data.

(** The pixel in row [i], column [j]. *)
Definition pixel {A} (image : list (list A)) (i j : nat) : option A :=
  row ← image !! i; row !! j.

(** The smallest positive [float64], 2^-1074. *)
Definition smallest_positive : float := 0x1p-1074%float.

End Inversion.

(** *** The SrTiO3/LaTiO3 interface (ASE notebook, cell 29) *)

Module Interface.

(** ASE's table of chemical symbols, indexed by atomic number. *)
Definition chemical_symbols : list string :=
  ["X"; "H"; "He"; "Li"; "Be"; "B"; "C"; "N"; "O"; "F"; "Ne";
   "Na"; "Mg"; "Al"; "Si"; "P"; "S"; "Cl"; "Ar"; "K"; "Ca";
   "Sc"; "Ti"; "V"; "Cr"; "Mn"; "Fe"; "Co"; "Ni"; "Cu"; "Zn";
   "Ga"; "Ge"; "As"; "Se"; "Br"; "Kr"; "Rb"; "Sr"; "Y"; "Zr";
   "Nb"; "Mo"; "Tc"; "Ru"; "Rh"; "Pd"; "Ag"; "Cd"; "In"; "Sn";
   "Sb"; "Te"; "I"; "Xe"; "Cs"; "Ba"; "La"; "Ce"; "Pr"; "Nd";
   "Pm"; "Sm"; "Eu"; "Gd"; "Tb"; "Dy"; "Ho"; "Er"; "Tm"; "Yb";
   "Lu"; "Hf"; "Ta"; "W"; "Re"; "Os"; "Ir"; "Pt"; "Au"; "Hg";
   "Tl"; "Pb"; "Bi"; "Po"; "At"; "Rn"; "Fr"; "Ra"; "Ac"; "Th";
   "Pa"; "U"; "Np"; "Pu"; "Am"; "Cm"; "Bk"; "Cf"; "Es"; "Fm";
   "Md"; "No"; "Lr"; "Rf"; "Db"; "Sg"; "Bh"; "Hs"; "Mt"; "Ds";
   "Rg"; "Cn"; "Nh"; "Fl"; "Mc"; "Lv"; "Ts"; "Og"].

(** The symbol of an atomic number, and the atomic number of a symbol. *)
Definition symbol_of (z : Z) : option string :=
  if (0 <=? z)%Z then chemical_symbols !! Z.to_nat z else None.

Fixpoint position_of (sym : string) (table : list string) : option nat :=
  match table with
  | [] => None
  | x :: rest => if bool_decide (x = sym) then Some 0%nat else S <$> position_of sym rest
  end.

Definition atomic_number (sym : string) : option Z :=
  Z.of_nat <$> position_of sym chemical_symbols.

(** An [Atoms] object: one atomic number and one position per atom, and the
    periodic cell. *)
Record Atoms := mkAtoms {
  numbers : list Z;
  positions : list (Q * Q * Q);
  cell : list (Q * Q * Q);
  pbc : bool * bool * bool
}.

(** A session variable holds a reference to an [Atoms] object or a boolean
    array.  Objects live in the heap, so two variables can name one object. *)
Inductive value := VAtoms (l : nat) | VArray (m : list bool).

Record session := Session {
  vars : gmap string value;
  heap : gmap nat Atoms
}.

Definition set_var (x : string) (v : value) (st : session) : session :=
  {| vars := <[x := v]> (vars st); heap := heap st |}.

Definition set_heap (h : gmap nat Atoms) (st : session) : session :=
  {| vars := vars st; heap := h |}.

(** The object a variable names, with its reference. [None] is a raise. *)
Definition get_atoms (x : string) (st : session) : option (nat * Atoms) :=
  v ← vars st !! x;
  match v with
  | VAtoms l => a ← heap st !! l; Some (l, a)
  | VArray _ => None
  end.

Definition get_array (x : string) (st : session) : option (list bool) :=
  v ← vars st !! x;
  match v with
  | VArray m => Some m
  | VAtoms _ => None
  end.

(** [atoms.copy()]: a new object holding copies of the arrays and the cell. *)
Definition copy (l : nat) (h : gmap nat Atoms) : option (nat * gmap nat Atoms) :=
  a ← h !! l;
  let l' := fresh (dom h) in
  Some (l', <[l' := a]> h).

(** [atoms.symbols == sym] for a chemical symbol [sym]: the symbol is turned
    into its atomic number, which is compared with every entry of [numbers]. *)
Definition symbols_eq (a : Atoms) (sym : string) : option (list bool) :=
  z ← atomic_number sym;
  Some (map (fun n => (n =? z)%Z) (numbers a)).

(** [positions[:, axis]] *)
Definition column (axis : nat) (ps : list (Q * Q * Q)) : option (list Q) :=
  match axis with
  | 0 => Some (map (fun p => p.1.1) ps)
  | 1 => Some (map (fun p => p.1.2) ps)
  | 2 => Some (map (fun p => p.2) ps)
  | _ => None
  end.

Definition Qlt_bool (x y : Q) : bool := negb (Qle_bool y x).

(** [array < bound], entry by entry. *)
Definition less (xs : list Q) (bound : Q) : list bool :=
  map (fun x => Qlt_bool x bound) xs.

(** [m1 * m2] on boolean arrays of one shape: entrywise "and". *)
Definition multiply (m1 m2 : list bool) : option (list bool) :=
  if (length m1 =? length m2)%nat then Some (zip_with andb m1 m2) else None.

(** [array[mask] = v]: the entries under a true mask entry become [v]; the
    mask must have the array's length. *)
Definition setitem (array : list Z) (mask : list bool) (v : Z) : option (list Z) :=
  if (length mask =? length array)%nat
  then Some (zip_with (fun (b : bool) n => if b then v else n) mask array)
  else None.

Definition set_numbers (ns : list Z) (a : Atoms) : Atoms :=
  {| numbers := ns; positions := positions a; cell := cell a; pbc := pbc a |}.

(** The cell, statement by statement. *)
Definition make_interface (st : session) : option session :=
  (* sto_lto = repeated_srtio3.copy() *)
  '(src, _) ← get_atoms "repeated_srtio3" st;
  '(l, h) ← copy src (heap st);
  let st := set_var "sto_lto" (VAtoms l) (set_heap h st) in
  (* mask = sto_lto.symbols == "Sr" *)
  '(_, a) ← get_atoms "sto_lto" st;
  mask ← symbols_eq a "Sr";
  let st := set_var "mask" (VArray mask) st in
  (* mask = mask * (sto_lto.positions[:, 1] < 7.5) *)
  mask ← get_array "mask" st;
  '(_, a) ← get_atoms "sto_lto" st;
  ys ← column 1 (positions a);
  mask ← multiply mask (less ys 7.5%Q);
  let st := set_var "mask" (VArray mask) st in
  (* sto_lto.numbers[mask] = 57 *)
  '(l, a) ← get_atoms "sto_lto" st;
  mask ← get_array "mask" st;
  ns ← setitem (numbers a) mask 57%Z;
  Some (set_heap (<[l := set_numbers ns a]> (heap st)) st).

(** The invariant ASE keeps on an [Atoms] object: one position per atomic
    number. *)
Definition well_formed (a : Atoms) : Prop :=
  length (numbers a) = length (positions a).

Definition heap_well_formed (h : gmap nat Atoms) : Prop :=
  forall l a, h !! l = Some a -> well_formed a.

(** The number of atoms of atomic number [z]. *)
Definition count (z : Z) (ns : list Z) : nat :=
  length (List.filter (fun n => (n =? z)%Z) ns).

(** [array[i] = v] for an index [i] counted from the front: out of range it
    raises. *)
Definition setitem_at (array : list Z) (i : nat) (v : Z) : option (list Z) :=
  if (i <? length array)%nat then Some (<[i := v]> array) else None.

(** ASE notebook, cell 11: [atoms.numbers[0] = 8], the first atom becomes
    oxygen, edited in the object itself. *)
Definition first_atom_to_oxygen (st : session) : option session :=
  '(l, a) ← get_atoms "atoms" st;
  ns ← setitem_at (numbers a) 0 8%Z;
  Some (set_heap (<[l := set_numbers ns a]> (heap st)) st).

(** The N2 molecule of cell 3, named twice. *)
Definition nitrogen : Atoms :=
  {| numbers := [7; 7]%Z;
     positions := [(0.0, 0.0, 0.0); (1.0, 0.0, 0.0)]%Q;
     cell := [(6, 0, 0); (0, 6, 0); (0, 0, 6)]%Q;
     pbc := (false, false, false) |}.

Definition session_N2 : session :=
  {| vars := {["atoms" := VAtoms 0%nat; "alias" := VAtoms 0%nat]};
     heap := {[0%nat := nitrogen]} |}.

(** What the cell computes, in closed form: the mask of the Sr atoms below
    y = 7.5, and the atomic numbers with 57 under the mask. *)
Definition low_Sr_mask (a : Atoms) : list bool :=
  zip_with andb (map (fun n => (n =? 38)%Z) (numbers a))
    (less (map (fun p : Q * Q * Q => p.1.2) (positions a)) 7.5%Q).

Definition low_Sr_to_La (a : Atoms) : list Z :=
  zip_with (fun (b : bool) n => if b then 57%Z else n) (low_Sr_mask a) (numbers a).

(** Two unit cells of SrTiO3 stacked along y, as a session to run on. *)
Definition two_cells : Atoms :=
  {| numbers := [38; 22; 8; 8; 8; 38; 22; 8; 8; 8]%Z;
     positions :=
       [(0, 0, 0); (1.9525, 1.9525, 1.9525); (1.9525, 1.9525, 0);
        (1.9525, 0, 1.9525); (0, 1.9525, 1.9525);
        (0, 7.81, 0); (1.9525, 9.7625, 1.9525); (1.9525, 9.7625, 0);
        (1.9525, 7.81, 1.9525); (0, 9.7625, 1.9525)]%Q;
     cell := [(3.905, 0, 0); (0, 11.715, 0); (0, 0, 3.905)]%Q;
     pbc := (true, true, true) |}.

Definition session0 : session :=
  {| vars := {["repeated_srtio3" := VAtoms 0%nat]}; heap := {[0%nat := two_cells]} |}.

End Interface.

(** ** Part 5. Theorems *)

(** *** Reading the cells by computation *)

(** A property of every statement of every cell is checked by running the
    boolean test over the cells. *)
Lemma all_statements_spec (p : stmt -> bool) (nb : list cell) :
  forallb (fun c => forallb p (source c)) nb = true
  <-> forall c s, In c nb -> In s (source c) -> p s = true.
Proof.
  rewrite forallb_forall. split.
  - intros H c s Hc Hs. specialize (H c Hc). rewrite forallb_forall in H. auto.
  - intros H c Hc. apply forallb_forall. intros s Hs. eauto.
Qed.

(** The same at any depth of nesting. *)
Lemma all_substmts_spec (p : stmt -> bool) (nb : list cell) :
  forallb (fun c => forallb p (flat_map substmts (source c))) nb = true
  <-> forall c s, In c nb -> In s (flat_map substmts (source c)) -> p s = true.
Proof.
  rewrite forallb_forall. split.
  - intros H c s Hc Hs. specialize (H c Hc). rewrite forallb_forall in H. auto.
  - intros H c Hc. apply forallb_forall. intros s Hs. eauto.
Qed.

Lemma substmts_self (s : stmt) : In s (substmts s).
Proof. destruct s; simpl; auto. Qed.

Lemma top_level_is_substmt (ss : list stmt) (s : stmt) :
  In s ss -> In s (flat_map substmts ss).
Proof. intros H. apply in_flat_map. exists s. split; [assumption | apply substmts_self]. Qed.

(** A check that passes over a list passes at every position of it, given
    the statements before that position, latest first. *)
Lemma checked_in_order_spec (p : list stmt -> stmt -> bool) (ss : list stmt) :
  forall before, checked_in_order p before ss = true ->
    forall i s, ss !! i = Some s -> p (rev (take i ss) ++ before) s = true.
Proof.
  induction ss as [| s0 ss IH]; intros before H i s Hi; [discriminate Hi |].
  simpl in H. apply andb_true_iff in H as [H0 H].
  destruct i as [| i]; simpl in *.
  - injection Hi as <-. exact H0.
  - rewrite <- app_assoc. simpl. exact (IH (s0 :: before) H i s Hi).
Qed.

(** *** C1 *)

(** C1, as stated, does not hold: cell 18 of the Atomap tutorial defines the
    function [get_live_fft], so not every statement of every cell is a call
    into a library. *)
Lemma C1_counterexample_cell_defines_function :
  ~ (forall nb c s, In nb notebooks -> In c nb -> In s (source c) ->
       calls_library_only nb s = true).
Proof.
  intros H.
  assert (Hin : In (SFunctionDef "get_live_fft" ["s"]
                      [SAssign (EName "roi")
                         (ECall (EAttribute (EAttribute (EName "hs") "roi") "RectangularROI")
                            [] []);
                       SExpr (ECall (EAttribute (EName "s") "plot") [] []);
                       SAssign (EName "s_roi")
                         (ECall (EAttribute (EName "roi") "interactive") [EName "s"] []);
                       SAssign (EName "s_fft")
                         (ECall (EAttribute (EName "hs") "interactive")
                            [EAttribute (EName "s_roi") "fft"] [("shift", EBool true)]);
                       SExpr (ECall (EAttribute (EName "s_fft") "plot") []
                                [("power_spectrum", EBool true)]);
                       SReturn (EName "s_fft")])
                   (statements atomap_tutorial)).
  { vm_compute. do 7 right. left. reflexivity. }
  apply in_flat_map in Hin as (c & Hc & Hs).
  specialize (H atomap_tutorial c _ (or_introl eq_refl) Hc Hs).
  vm_compute in H. discriminate H.
Qed.

(** C1, amended.  No cell defines a class or holds a branch, a loop, a
    [with], a [try] or a [raise], at any depth.  Exactly one function is
    defined, [get_live_fft] in cell 18 of the Atomap tutorial; its body is
    five plain calls, two starting from the import [hs] and three methods of
    objects, and the return of a local.  Every statement of every cell is a
    magic, an import, that definition, a plain call (a dotted callee, no call
    and no operator in the arguments) starting from an imported name or
    being a method of an object, or one of the following, with the cells
    holding them: a call of [get_live_fft]; a read of a name, an attribute or
    a subscript, displayed or assigned; an assignment of a literal; an item
    store of an operand; a statement applying an arithmetic, comparison or
    in-place operator.  Of the operators, only those of cell 45 of the ASE
    notebook act on literals alone. *)
Theorem C1_local_code_is_one_function_and_operators :
  (forall c s, In c code_cells -> In s (flat_map substmts (source c)) ->
     negb (is_classdef s || is_control s) = true)
  /\ (exists body,
        filter is_functiondef (flat_map substmts (statements code_cells))
          = [SFunctionDef "get_live_fft" ["s"] body]
        /\ map (kind_of atomap_tutorial) body
           = [KLibraryCall; KMethodCall; KMethodCall; KLibraryCall; KMethodCall; KReturn])
  /\ (forall nb c s, In nb notebooks -> In c nb -> In s (source c) ->
        In (kind_of nb s)
          [KMagic; KImport; KDef; KLibraryCall; KMethodCall; KLocalCall; KRead;
           KLiteral; KStore; KOperator])
  /\ map (cells_of_kind KDef) notebooks = [[18]; []]%nat
  /\ map (cells_of_kind KLocalCall) notebooks = [[20]; []]%nat
  /\ map (cells_of_kind KRead) notebooks
     = [[53; 55; 56; 62; 77; 89; 101; 117; 119; 128; 132; 134]; [5; 6; 7; 8; 10; 13]]%nat
  /\ map (cells_of_kind KLiteral) notebooks = [[]; [19; 46]]%nat
  /\ map (cells_of_kind KStore) notebooks = [[]; [11; 29]]%nat
  /\ map (cells_of_kind KOperator) notebooks
     = [[75]; [13; 19; 25; 29; 37; 39; 44; 45; 46; 47]]%nat
  /\ map (cells_with (fun s => existsb is_literal_operator (exprs_of s))) notebooks
     = [[]; [45]]%nat.
Proof.
  split; [apply all_substmts_spec; vm_compute; reflexivity |].
  split; [eexists; split; vm_compute; reflexivity |].
  split; [| repeat split; vm_compute; reflexivity].
  assert (Hall : forall nb,
             forallb (fun c => forallb (fun s =>
               bool_decide (kind_of nb s ∈
                 [KMagic; KImport; KDef; KLibraryCall; KMethodCall; KLocalCall; KRead;
                  KLiteral; KStore; KOperator])) (source c)) nb = true ->
             forall c s, In c nb -> In s (source c) ->
               In (kind_of nb s)
                 [KMagic; KImport; KDef; KLibraryCall; KMethodCall; KLocalCall; KRead;
                  KLiteral; KStore; KOperator]).
  { intros nb Hb c s Hc Hs. rewrite all_statements_spec in Hb.
    specialize (Hb c s Hc Hs). apply bool_decide_eq_true, list_elem_of_In in Hb. exact Hb. }
  intros nb c s [<- | [<- | []]]; apply Hall; vm_compute; reflexivity.
Qed.

(** *** C5 *)

(** C5.  Each of the three names is used, and every statement of the
    notebooks in which it occurs, at any depth, is one call [x.h(...)] on a
    name, standing alone or as the right-hand side of an assignment; the
    receiver [x] is the imported module [abtem], or an object that came out
    of a library: it was last bound to a plain call or an access starting
    from an import, directly or through other such objects.  Nothing of
    these algorithms is written in a cell: no cell holds a class, a branch, a
    loop, a [with], a [try] or a [raise]; the one function defined is
    [get_live_fft], five plain calls and a return; and the operators and
    in-place operators below are all the computation the cells write. *)
Theorem C5_hardest_operations_are_single_library_calls :
  Forall (fun h =>
            (exists s, In s (flat_map substmts (statements code_cells))
                       /\ mentions h s = true)
            /\ (forall s, In s (flat_map substmts (statements code_cells)) ->
                  mentions h s = true -> single_call h s = true)
            /\ (forall nb i s, In nb notebooks -> statements nb !! i = Some s ->
                  mentions h s = true ->
                  exists x, receiver s = Some x
                            /\ from_library (rev (take i (statements nb))) x = true))
    hardest_operations
  /\ (forall c s, In c code_cells -> In s (flat_map substmts (source c)) ->
        negb (is_classdef s || is_control s) = true)
  /\ (exists body,
        filter is_functiondef (flat_map substmts (statements code_cells))
          = [SFunctionDef "get_live_fft" ["s"] body]
        /\ map (kind_of atomap_tutorial) body
           = [KLibraryCall; KMethodCall; KMethodCall; KLibraryCall; KMethodCall; KReturn])
  /\ map operators_written notebooks
     = [[EBinOp (EInt 1) Div (EAttribute (EName "s_abf") "data")];
        [EBinOp (EName "srtio3") Mult (ETuple [EInt 3; EInt 3; EInt 3]);
         ECompare (EAttribute (EName "sto_lto") "symbols") Eq (EStr "Sr");
         EBinOp (EName "mask") Mult
           (ECompare
              (ESubscript (EAttribute (EName "sto_lto") "positions")
                 (ETuple [ESlice None None; EInt 1]))
              Lt (EFloat 7.5%Q));
         ECompare
           (ESubscript (EAttribute (EName "sto_lto") "positions")
              (ETuple [ESlice None None; EInt 1]))
           Lt (EFloat 7.5%Q);
         EBinOp (EName "graphene") Mult (ETuple [EInt 4; EInt 4; EInt 1]);
         EBinOp (EName "orthogonal_graphene") Mult (ETuple [EInt 5; EInt 3; EInt 1]);
         EBinOp (EName "srtio3") Mult (ETuple [EInt 1; EInt 1; EInt 8]);
         EBinOp (EFloat 8.8%Q) Div (EInt 2);
         EBinOp (EUnaryOp USub (EFloat 8.8%Q)) Div (EInt 2);
         EUnaryOp USub (EFloat 8.8%Q);
         EUnaryOp USub
           (ESubscript (EAttribute (EName "atoms_top") "cell") (ETuple [EInt 2; EInt 2]));
         EBinOp (EName "atoms_top") Add (EName "atoms_bottom")]]
  /\ map augassigns_written notebooks
     = [[];
        [SAugAssign (EName "atoms") Add
           (ECall (EAttribute (EName "ase") "Atoms") [EStr "N"]
              [("positions", EList [ETuple [EFloat 2.0%Q; EInt 0; EInt 0]])]);
         SAugAssign (EName "repeated_srtio3") Mult (ETuple [EInt 3; EInt 4; EInt 10]);
         SAugAssign
           (ESubscript (EAttribute (EName "combined") "cell") (ETuple [EInt 2; EInt 2]))
           Mult (EInt 2)]].
Proof.
  assert (Hall : forall h,
             forallb (fun s => implb (mentions h s) (single_call h s))
               (flat_map substmts (statements code_cells)) = true ->
             forall s, In s (flat_map substmts (statements code_cells)) ->
               mentions h s = true -> single_call h s = true).
  { intros h H s Hs Hm. rewrite forallb_forall in H. specialize (H s Hs).
    rewrite Hm in H. exact H. }
  assert (Hex : forall h,
             existsb (mentions h) (flat_map substmts (statements code_cells)) = true ->
             exists s, In s (flat_map substmts (statements code_cells))
                       /\ mentions h s = true).
  { intros h H. apply existsb_exists in H. exact H. }
  assert (Hlib : forall h,
             forallb (fun nb => checked_in_order (library_call_of h) [] (statements nb))
               notebooks = true ->
             forall nb i s, In nb notebooks -> statements nb !! i = Some s ->
               mentions h s = true ->
               exists x, receiver s = Some x
                         /\ from_library (rev (take i (statements nb))) x = true).
  { intros h H nb i s Hnb Hi Hm. rewrite forallb_forall in H. specialize (H nb Hnb).
    pose proof (checked_in_order_spec _ _ [] H i s Hi) as Hs.
    rewrite app_nil_r in Hs. unfold library_call_of in Hs. rewrite Hm in Hs.
    simpl in Hs. apply andb_true_iff in Hs as [_ Hs].
    destruct (receiver s) as [x |]; [eauto | discriminate Hs]. }
  split.
  { unfold hardest_operations.
    repeat constructor;
      first [ apply Hex; vm_compute; reflexivity
            | apply Hall; vm_compute; reflexivity
            | apply Hlib; vm_compute; reflexivity ]. }
  split; [apply all_substmts_spec; vm_compute; reflexivity |].
  split; [eexists; split; vm_compute; reflexivity |].
  split; vm_compute; reflexivity.
Qed.

(** *** C6 *)



(** *** C4 *)

Section Propagation.
Context {State exn : Type} (k : kernel State exn).

(** A statement that is not a control statement runs as one simple step. *)
Lemma exec_simple (fuel : nat) (s : stmt) (st : State) :
  is_control s = false -> exec k fuel s st = Some (simple k s st).
Proof. destruct s; simpl; intros H; try discriminate H; reflexivity. Qed.

(** When the statements before [s] complete and [s] raises, the run ends
    with that exception, in the state of the raise: nothing after runs. *)
Lemma exec_block_raise (fuel : nat) (pre post : list stmt) (s : stmt)
    (st st1 st2 : State) (e : exn) :
  exec_block k fuel pre st = Some (Done tt st1) ->
  exec k fuel s st1 = Some (Raised e st2) ->
  exec_block k fuel (pre ++ s :: post) st = Some (Raised e st2).
Proof.
  revert st. induction pre as [| x pre IH]; intros st Hpre Hs; simpl in *.
  - injection Hpre as ->. rewrite Hs. reflexivity.
  - destruct (exec k fuel x st) as [[[] st' | e' st'] |]; try discriminate Hpre.
    apply IH; assumption.
Qed.

End Propagation.

(** No statement of any cell, at any depth, is a control statement. *)
Lemma cells_have_no_control (c : cell) :
  In c code_cells ->
  forallb (fun x => negb (is_control x)) (flat_map substmts (source c)) = true.
Proof.
  assert (H : forallb (fun c => forallb (fun x => negb (is_control x))
                                  (flat_map substmts (source c))) code_cells = true)
    by (vm_compute; reflexivity).
  rewrite forallb_forall in H. exact (H c).
Qed.

(** C4.  A cell holds no [try], [with], [raise], loop or branch, at any
    depth; so whatever the kernel and the libraries do, when a statement of
    the cell raises after those before it completed, running the cell ends
    with that very exception in the state of the raise: it is not caught,
    the statement is not run again, and the rest of the cell does not run. *)
Theorem C4_errors_surface_unhandled (c : cell) (Hc : In c code_cells) :
  forallb (fun x => negb (is_control x)) (flat_map substmts (source c)) = true
  /\ forall (State exn : Type) (k : kernel State exn) (fuel : nat)
       (pre post : list stmt) (s : stmt) (st st1 st2 : State) (e : exn),
       source c = pre ++ s :: post ->
       exec_block k fuel pre st = Some (Done tt st1) ->
       simple k s st1 = Raised e st2 ->
       run_cell k fuel c st = Some (Raised e st2).
Proof.
  pose proof (cells_have_no_control c Hc) as Hno. split; [exact Hno |].
  intros State exn k fuel pre post s st st1 st2 e Hsrc Hpre Hs.
  unfold run_cell. rewrite Hsrc. apply exec_block_raise with (st1 := st1); [exact Hpre |].
  rewrite exec_simple, Hs; [reflexivity |].
  rewrite forallb_forall in Hno.
  apply negb_true_iff, Hno, top_level_is_substmt.
  rewrite Hsrc. apply in_or_app. right. left. reflexivity.
Qed.

(** C4 at the cell loading the ADF image, on a kernel where the file is
    missing: the cell ends with the error of [hs.load]. *)
Lemma C4_witness_missing_ADF_image :
  In (Cell 10 [SAssign (EName "s")
                 (ECall (EAttribute (EName "hs") "load") [EStr "ADF_image.hspy"] [])])
     code_cells
  /\ run_cell missing_files 0
       (Cell 10 [SAssign (EName "s")
                   (ECall (EAttribute (EName "hs") "load") [EStr "ADF_image.hspy"] [])])
       [] = Some (Raised "FileNotFoundError" []).
Proof.
  assert (Hin : In (Cell 10 [SAssign (EName "s")
                   (ECall (EAttribute (EName "hs") "load") [EStr "ADF_image.hspy"] [])])
                   code_cells).
  { do 3 right. left. reflexivity. }
  split; [exact Hin |].
  apply (proj2 (C4_errors_surface_unhandled _ Hin) _ _ missing_files 0%nat [] []
           (SAssign (EName "s")
              (ECall (EAttribute (EName "hs") "load") [EStr "ADF_image.hspy"] []))
           [] [] [] "FileNotFoundError"); reflexivity.
Defined.

(** The same for the ABF image and for the exported structure read back. *)
Example missing_ABF_image :
  In (Cell 14 [SAssign (EName "s_abf")
                 (ECall (EAttribute (EName "hs") "load") [EStr "ABF_image.hspy"] [])])
     atomap_tutorial
  /\ run_cell missing_files 0
       (Cell 14 [SAssign (EName "s_abf")
                   (ECall (EAttribute (EName "hs") "load") [EStr "ABF_image.hspy"] [])])
       [] = Some (Raised "FileNotFoundError" []).
Proof. split; [do 5 right; left |]; reflexivity. Qed.

Example missing_sto_lto_cif :
  In (Cell 35 [SAssign (EName "sto_lto")
                 (ECall (EAttribute (EAttribute (EName "ase") "io") "read")
                    [EStr "sto_lto.cif"] [])])
     atomic_models_with_ase
  /\ run_cell missing_files 0
       (Cell 35 [SAssign (EName "sto_lto")
                   (ECall (EAttribute (EAttribute (EName "ase") "io") "read")
                      [EStr "sto_lto.cif"] [])])
       [] = Some (Raised "FileNotFoundError" []).
Proof. split; [do 19 right; left |]; reflexivity. Qed.

(** Error handling is expressible: the same load inside a [try] whose clause
    matches completes, on the same kernel. *)
Example try_would_catch :
  exec missing_files 0
    (STry [SAssign (EName "s")
             (ECall (EAttribute (EName "hs") "load") [EStr "ADF_image.hspy"] [])]
          None [] [])
    [] = Some (Done tt []).
Proof. reflexivity. Qed.

(** *** C8 *)

Section GetLiveFFTFacts.
Import LiveFFT.
Context {Store obj exn array : Type} (hs : hyperspy Store obj exn array).

(** Inversion of a completed [bind]. *)
Lemma bind_done {A B} (m : M Store exn A) (f : A -> M Store exn B)
    (st st' : Store) (b : B) :
  bind m f st = Done b st' <-> exists a st1, m st = Done a st1 /\ f a st1 = Done b st'.
Proof.
  unfold bind. split.
  - destruct (m st) as [a st1 | e st1]; [eauto | discriminate].
  - intros (a & st1 & -> & H). exact H.
Qed.

(** A computation built from data-preserving steps preserves the data. *)
Lemma preserves_bind {A B} (s : obj) (m : M Store exn A) (f : A -> M Store exn B) :
  preserves_data hs s m -> (forall a, preserves_data hs s (f a)) ->
  preserves_data hs s (bind m f).
Proof.
  intros Hm Hf st b st' d Hd H. apply bind_done in H as (a & st1 & H1 & H2).
  eapply Hf; [| exact H2]. eapply Hm; eassumption.
Qed.

Lemma preserves_ret {A} (s : obj) (a : A) : preserves_data hs s (ret a).
Proof. intros st b st' d Hd H. injection H as _ <-. exact Hd. Qed.

End GetLiveFFTFacts.


(** The small library never writes an array it has allocated. *)
Lemma toy_alloc_preserves (s : nat) (a : list (list Z)) :
  LiveFFT.preserves_data LiveFFT.toy s (LiveFFT.alloc a).
Proof.
  intros st r st' d Hd H. cbv [LiveFFT.alloc] in H. injection H as _ <-.
  simpl in *. apply lookup_app_l_Some. exact Hd.
Qed.


(** *** C9 *)

Section InversionFacts.
Import Inversion.

Lemma pixel_map {A B} (f : A -> B) (image : list (list A)) (i j : nat) :
  pixel (map (map f) image) i j = f <$> pixel image i j.
Proof.
  unfold pixel. rewrite list_lookup_fmap.
  destruct (image !! i) as [row |]; simpl; [| reflexivity].
  apply list_lookup_fmap.
Qed.

(** In the specification of the floats, only a zero equals zero, only NaN
    differs from itself, and only an infinity has infinite magnitude. *)
Lemma SFeqb_zero (f : spec_float) :
  SFeqb f (S754_zero false) = true -> exists s, f = S754_zero s.
Proof.
  unfold SFeqb. destruct f as [s | s | | s m e]; simpl; try discriminate.
  - eauto.
  - destruct s; discriminate.
  - destruct s; discriminate.
Qed.

Lemma SFeqb_irreflexive (f : spec_float) : SFeqb f f = false -> f = S754_nan.
Proof.
  unfold SFeqb. destruct f as [s | s | | s m e]; simpl; try discriminate; try reflexivity.
  - destruct s; discriminate.
  - destruct s; rewrite Z.compare_refl, Pos.compare_cont_refl; discriminate.
Qed.

Lemma SFeqb_abs_infinity (f : spec_float) :
  SFeqb (SFabs f) (S754_infinity false) = true -> exists s, f = S754_infinity s.
Proof.
  unfold SFeqb. destruct f as [s | s | | s m e]; simpl; try discriminate; eauto.
Qed.

(** The floats that compare equal to zero are the two zeros. *)
Lemma is_zero_cases (x : float) :
  is_zero x = true -> x = PrimFloat.zero \/ x = PrimFloat.neg_zero.
Proof.
  unfold is_zero. rewrite FloatAxioms.eqb_spec. intros H.
  apply SFeqb_zero in H as [s H].
  rewrite <- (SF2Prim_Prim2SF x), H. destruct s; [right | left]; reflexivity.
Qed.

(** The one float that differs from itself is NaN. *)
Lemma is_nan_eq (x : float) : is_nan x = true -> x = nan.
Proof.
  unfold is_nan. rewrite negb_true_iff, FloatAxioms.eqb_spec. intros H.
  apply SFeqb_irreflexive in H. rewrite <- (SF2Prim_Prim2SF x), H. reflexivity.
Qed.

(** The floats of infinite magnitude are the two infinities. *)
Lemma is_infinity_cases (x : float) :
  is_infinity x = true -> x = infinity \/ x = neg_infinity.
Proof.
  unfold is_infinity. rewrite FloatAxioms.eqb_spec, abs_spec. intros H.
  apply SFeqb_abs_infinity in H as [s H].
  rewrite <- (SF2Prim_Prim2SF x), H. destruct s; [right | left]; reflexivity.
Qed.

End InversionFacts.

(** C9, as stated, does not hold: the pixel 2^-1074 is not zero, yet its
    reciprocal overflows to infinity.  So an image without zero pixels can
    still invert to an image with infinite pixels. *)
Lemma C9_counterexample_nonzero_pixel_overflows :
  ~ (forall s_abf_data : list (list float),
       (forall i j x, Inversion.pixel s_abf_data i j = Some x -> is_zero x = false)
       <-> (forall i j y,
              Inversion.pixel (Inversion.data_abf_invert s_abf_data) i j = Some y ->
              is_finite y = true)).
Proof.
  intros H. destruct (H [[Inversion.smallest_positive]]) as [H1 _].
  assert (Hnz : forall i j x,
             Inversion.pixel [[Inversion.smallest_positive]] i j = Some x ->
             is_zero x = false).
  { intros i j x Hx.
    destruct i as [| i]; [| destruct i; discriminate Hx].
    destruct j as [| j]; [| destruct j; discriminate Hx].
    injection Hx as <-. reflexivity. }
  assert (Hfin : is_finite infinity = true)
    by (apply (H1 Hnz 0%nat 0%nat); reflexivity).
  discriminate Hfin.
Qed.

(** C9, amended.  The inverted image has, at every pixel, the float64
    quotient of 1 by the pixel of [s_abf.data].  The division is unguarded
    and raises nothing: a zero pixel, of either sign, gives an infinity, a
    NaN pixel gives NaN, and an infinite pixel gives a zero.  A nonzero
    pixel can give an infinity as well: 2^-1074 does. *)
Theorem C9_inversion_is_pixelwise_reciprocal (s_abf_data : list (list float)) :
  (forall i j,
     Inversion.pixel (Inversion.data_abf_invert s_abf_data) i j
       = (fun x => (1 / x)%float) <$> Inversion.pixel s_abf_data i j)
  /\ (forall i j x, Inversion.pixel s_abf_data i j = Some x -> is_zero x = true ->
        exists y, Inversion.pixel (Inversion.data_abf_invert s_abf_data) i j = Some y
                  /\ is_infinity y = true)
  /\ (forall i j x, Inversion.pixel s_abf_data i j = Some x -> is_nan x = true ->
        exists y, Inversion.pixel (Inversion.data_abf_invert s_abf_data) i j = Some y
                  /\ is_nan y = true)
  /\ (forall i j x, Inversion.pixel s_abf_data i j = Some x -> is_infinity x = true ->
        exists y, Inversion.pixel (Inversion.data_abf_invert s_abf_data) i j = Some y
                  /\ is_zero y = true)
  /\ (is_zero Inversion.smallest_positive = false
      /\ Inversion.data_abf_invert [[Inversion.smallest_positive]] = [[infinity]]).
Proof.
  assert (Hpix : forall i j,
             Inversion.pixel (Inversion.data_abf_invert s_abf_data) i j
               = (fun x => (1 / x)%float) <$> Inversion.pixel s_abf_data i j)
    by (intros i j; apply pixel_map).
  split; [exact Hpix |]. split; [| split; [| split]].
  - intros i j x Hx Hz. rewrite Hpix, Hx. eexists. split; [reflexivity |].
    destruct (is_zero_cases x Hz) as [-> | ->]; reflexivity.
  - intros i j x Hx Hn. rewrite Hpix, Hx. eexists. split; [reflexivity |].
    rewrite (is_nan_eq x Hn). reflexivity.
  - intros i j x Hx Hi. rewrite Hpix, Hx. eexists. split; [reflexivity |].
    destruct (is_infinity_cases x Hi) as [-> | ->]; reflexivity.
  - split; reflexivity.
Qed.

(** A 2 x 2 image with a zero and a negative zero. *)
Example invert_with_zero_pixels :
  Inversion.data_abf_invert [[2; 0.5]; [0; -0]]%float
  = [[0.5; 2]; [infinity; neg_infinity]]%float.
Proof. reflexivity. Qed.

(** *** C10 *)

Section InterfaceFacts.
Import Interface.

(** In ASE's table, the symbol Sr stands at 38 and nowhere else. *)
Lemma symbol_Sr_iff (z : Z) : symbol_of z = Some "Sr" <-> z = 38%Z.
Proof.
  split; [| intros ->; reflexivity].
  unfold symbol_of. destruct (0 <=? z)%Z eqn:Hz; [| discriminate].
  apply Z.leb_le in Hz. intros H.
  assert (Hn : Z.to_nat z = 38%nat).
  { revert H. generalize (Z.to_nat z). intros n.
    do 119 (destruct n as [| n]; [vm_compute; congruence |]).
    rewrite lookup_ge_None_2; [discriminate | simpl; lia]. }
  lia.
Qed.

Lemma Qlt_bool_iff (x y : Q) : Qlt_bool x y = true <-> (x < y)%Q.
Proof.
  unfold Qlt_bool. rewrite negb_true_iff. split.
  - intros H. apply Qnot_le_lt. intros Hle. apply Qle_bool_iff in Hle. congruence.
  - intros H. destruct (Qle_bool y x) eqn:E; [| reflexivity].
    apply Qle_bool_iff in E. exfalso. exact (Qlt_not_le _ _ H E).
Qed.

End InterfaceFacts.

(** C10.  Let [repeated_srtio3] name an [Atoms] object with one position per
    atomic number.  Then the cell completes; [sto_lto] names a new object;
    every object that existed, [repeated_srtio3] among them, is as it was and
    the variable still names it; the new object has the positions, the cell
    and the periodicity of the original; and its atomic number at index [i]
    is 57 when the original atom there has symbol Sr and a y-coordinate below
    7.5, and the original number otherwise. *)
Theorem C10_interface_changes_only_low_Sr
    (st : Interface.session) (l : nat) (a : Interface.Atoms)
    (Hvar : Interface.vars st !! "repeated_srtio3" = Some (Interface.VAtoms l))
    (Hobj : Interface.heap st !! l = Some a)
    (Hlen : length (Interface.numbers a) = length (Interface.positions a)) :
  exists (st' : Interface.session) (l' : nat) (a' : Interface.Atoms),
    Interface.make_interface st = Some st'
    /\ Interface.vars st' !! "sto_lto" = Some (Interface.VAtoms l')
    /\ Interface.heap st' !! l' = Some a'
    /\ l' <> l
    /\ Interface.heap st !! l' = None
    /\ Interface.vars st' !! "repeated_srtio3" = Some (Interface.VAtoms l)
    /\ Interface.heap st' !! l = Some a
    /\ (forall r, r <> l' -> Interface.heap st' !! r = Interface.heap st !! r)
    /\ Interface.positions a' = Interface.positions a
    /\ Interface.cell a' = Interface.cell a
    /\ Interface.pbc a' = Interface.pbc a
    /\ length (Interface.numbers a') = length (Interface.numbers a)
    /\ forall (i : nat) (z : Z) (p : Q * Q * Q),
         Interface.numbers a !! i = Some z ->
         Interface.positions a !! i = Some p ->
         (Interface.symbol_of z = Some "Sr" -> (p.1.2 < 7.5)%Q ->
          Interface.numbers a' !! i = Some 57%Z)
         /\ (~ (Interface.symbol_of z = Some "Sr" /\ (p.1.2 < 7.5)%Q) ->
             Interface.numbers a' !! i = Some z).
Proof.
  destruct st as [env h]. simpl in Hvar, Hobj.
  set (l' := fresh (dom h)).
  assert (Hfresh : h !! l' = None) by (apply not_elem_of_dom, is_fresh).
  assert (Hne : l' <> l) by (intros ->; congruence).
  set (mask := zip_with andb
                 (map (fun n => (n =? 38)%Z) (Interface.numbers a))
                 (Interface.less (map (fun p : Q * Q * Q => p.1.2) (Interface.positions a))
                    7.5%Q)).
  set (ns := zip_with (fun (b : bool) n => if b then 57%Z else n) mask
               (Interface.numbers a)).
  assert (Hmask : length mask = length (Interface.numbers a)).
  { unfold mask, Interface.less. rewrite length_zip_with, !length_map. lia. }
  exists {| Interface.vars := <["mask" := Interface.VArray mask]>
                                (<["mask" := Interface.VArray
                                     (map (fun n => (n =? 38)%Z) (Interface.numbers a))]>
                                   (<["sto_lto" := Interface.VAtoms l']> env));
            Interface.heap := <[l' := Interface.set_numbers ns a]> (<[l' := a]> h) |},
         l', (Interface.set_numbers ns a).
  assert (Hga : forall x st0 l0 a0,
             Interface.vars st0 !! x = Some (Interface.VAtoms l0) ->
             Interface.heap st0 !! l0 = Some a0 ->
             Interface.get_atoms x st0 = Some (l0, a0)).
  { intros x st0 l0 a0 H1 H2. unfold Interface.get_atoms.
    rewrite H1. simpl. rewrite H2. reflexivity. }
  assert (Hgm : forall x st0 m,
             Interface.vars st0 !! x = Some (Interface.VArray m) ->
             Interface.get_array x st0 = Some m).
  { intros x st0 m H1. unfold Interface.get_array. rewrite H1. reflexivity. }
  split.
  { unfold Interface.make_interface.
    (* sto_lto = repeated_srtio3.copy() *)
    erewrite Hga by eassumption. cbn [mbind option_bind].
    unfold Interface.copy. cbn [Interface.heap].
    rewrite Hobj. cbn [mbind option_bind]. fold l'.
    (* mask = sto_lto.symbols == "Sr" *)
    erewrite Hga; [| cbn; apply lookup_insert_eq | cbn; apply lookup_insert_eq].
    cbn [mbind option_bind].
    change (Interface.symbols_eq a "Sr")
      with (Some (map (fun n => (n =? 38)%Z) (Interface.numbers a))).
    cbn [mbind option_bind].
    (* mask = mask * (sto_lto.positions[:, 1] < 7.5) *)
    erewrite Hgm by (cbn; apply lookup_insert_eq). cbn [mbind option_bind].
    erewrite Hga;
      [| cbn; rewrite lookup_insert_ne by discriminate; apply lookup_insert_eq
       | cbn; apply lookup_insert_eq].
    cbn [mbind option_bind Interface.column].
    unfold Interface.multiply, Interface.less at 1.
    rewrite !length_map, (proj2 (Nat.eqb_eq _ _) Hlen). cbn [mbind option_bind].
    fold mask.
    (* sto_lto.numbers[mask] = 57 *)
    erewrite Hga;
      [| cbn; rewrite !lookup_insert_ne by discriminate; apply lookup_insert_eq
       | cbn; apply lookup_insert_eq].
    cbn [mbind option_bind].
    erewrite Hgm by (cbn; apply lookup_insert_eq). cbn [mbind option_bind].
    unfold Interface.setitem. rewrite (proj2 (Nat.eqb_eq _ _) Hmask).
    cbn [mbind option_bind]. fold ns. reflexivity. }
  simpl. split; [| split; [| split; [| split; [| split; [| split; [| split]]]]]].
  - rewrite lookup_insert_ne by discriminate.
    rewrite lookup_insert_ne by discriminate. apply lookup_insert_eq.
  - apply lookup_insert_eq.
  - exact Hne.
  - exact Hfresh.
  - rewrite !lookup_insert_ne by discriminate. exact Hvar.
  - rewrite !lookup_insert_ne by exact Hne. exact Hobj.
  - intros r Hr. rewrite !lookup_insert_ne by (intros E; apply Hr; symmetry; exact E).
    reflexivity.
  - repeat split; try reflexivity.
    + unfold ns. rewrite length_zip_with. lia.
    + intros Hsym Hy. apply symbol_Sr_iff in Hsym. subst z.
      unfold ns, mask, Interface.less.
      rewrite !lookup_zip_with, !list_lookup_fmap, H, H0. simpl.
      rewrite (proj2 (Qlt_bool_iff _ _) Hy). reflexivity.
    + intros Hnot. unfold ns, mask, Interface.less.
      rewrite !lookup_zip_with, !list_lookup_fmap, H, H0. simpl.
      destruct (z =? 38)%Z eqn:Ez; simpl; [| reflexivity].
      destruct (Interface.Qlt_bool p.1.2 7.5) eqn:Ey; simpl; [| reflexivity].
      exfalso. apply Hnot. split.
      * apply symbol_Sr_iff, Z.eqb_eq, Ez.
      * apply Qlt_bool_iff, Ey.
Qed.

(** The cell run on two unit cells stacked along y: the Sr atom at y = 0
    becomes La, the one at y = 7.81 stays, and the original is intact. *)
Example interface_on_two_cells :
  (st' ← Interface.make_interface Interface.session0;
   new ← Interface.get_atoms "sto_lto" st';
   old ← Interface.get_atoms "repeated_srtio3" st';
   Some (new.1, Interface.numbers new.2, old.1, Interface.numbers old.2))
  = Some (1%nat, [57; 22; 8; 8; 8; 38; 22; 8; 8; 8]%Z,
          0%nat, [38; 22; 8; 8; 8; 38; 22; 8; 8; 8]%Z).
Proof. vm_compute. reflexivity. Qed.

(** C10 at that session: [repeated_srtio3] names the object at reference 0,
    which has ten atomic numbers and ten positions. *)
Lemma C10_witness_two_cells :
  exists (st' : Interface.session) (l' : nat) (a' : Interface.Atoms),
    Interface.make_interface Interface.session0 = Some st'
    /\ Interface.vars st' !! "sto_lto" = Some (Interface.VAtoms l')
    /\ Interface.heap st' !! l' = Some a'
    /\ l' <> 0%nat
    /\ Interface.heap Interface.session0 !! l' = None
    /\ Interface.vars st' !! "repeated_srtio3" = Some (Interface.VAtoms 0%nat)
    /\ Interface.heap st' !! 0%nat = Some Interface.two_cells
    /\ (forall r, r <> l' ->
          Interface.heap st' !! r = Interface.heap Interface.session0 !! r)
    /\ Interface.positions a' = Interface.positions Interface.two_cells
    /\ Interface.cell a' = Interface.cell Interface.two_cells
    /\ Interface.pbc a' = Interface.pbc Interface.two_cells
    /\ length (Interface.numbers a') = length (Interface.numbers Interface.two_cells)
    /\ forall (i : nat) (z : Z) (p : Q * Q * Q),
         Interface.numbers Interface.two_cells !! i = Some z ->
         Interface.positions Interface.two_cells !! i = Some p ->
         (Interface.symbol_of z = Some "Sr" -> (p.1.2 < 7.5)%Q ->
          Interface.numbers a' !! i = Some 57%Z)
         /\ (~ (Interface.symbol_of z = Some "Sr" /\ (p.1.2 < 7.5)%Q) ->
             Interface.numbers a' !! i = Some z).
Proof.
  apply (C10_interface_changes_only_low_Sr Interface.session0 0%nat Interface.two_cells);
    vm_compute; reflexivity.
Defined.

(** ** Part 6. Further properties of the code *)

(** *** The interface cell: when it runs, what it keeps *)

Section InterfaceRuns.
Import Interface.

Lemma get_atoms_lookup (x : string) (st : session) (l : nat) (a : Atoms) :
  vars st !! x = Some (VAtoms l) -> heap st !! l = Some a ->
  get_atoms x st = Some (l, a).
Proof.
  intros H1 H2. unfold get_atoms. rewrite H1. simpl. rewrite H2. reflexivity.
Qed.

Lemma get_atoms_inv (x : string) (st : session) (l : nat) (a : Atoms) :
  get_atoms x st = Some (l, a) ->
  vars st !! x = Some (VAtoms l) /\ heap st !! l = Some a.
Proof.
  unfold get_atoms. destruct (vars st !! x) as [[r | m] |]; simpl; try discriminate.
  destruct (heap st !! r) as [b |] eqn:E; simpl; [| discriminate].
  intros H. injection H as -> ->. auto.
Qed.

Lemma get_array_lookup (x : string) (st : session) (m : list bool) :
  vars st !! x = Some (VArray m) -> get_array x st = Some m.
Proof. intros H. unfold get_array. rewrite H. reflexivity. Qed.

(** The cell up to the two NumPy operations that can reject their operands:
    the product of the masks and the masked assignment. *)
Lemma make_interface_steps (st : session) (l : nat) (a : Atoms) :
  vars st !! "repeated_srtio3" = Some (VAtoms l) ->
  heap st !! l = Some a ->
  make_interface st
  = (m ← multiply (map (fun n => (n =? 38)%Z) (numbers a))
         (less (map (fun p : Q * Q * Q => p.1.2) (positions a)) 7.5%Q);
     ns ← setitem (numbers a) m 57%Z;
     Some {| vars := <["mask" := VArray m]>
                       (<["mask" := VArray (map (fun n => (n =? 38)%Z) (numbers a))]>
                          (<["sto_lto" := VAtoms (fresh (dom (heap st)))]> (vars st)));
             heap := <[fresh (dom (heap st)) := set_numbers ns a]>
                       (<[fresh (dom (heap st)) := a]> (heap st)) |}).
Proof.
  intros Hvar Hobj. unfold make_interface.
  rewrite (get_atoms_lookup _ _ _ _ Hvar Hobj). cbn [mbind option_bind].
  unfold copy. rewrite Hobj. cbn [mbind option_bind].
  erewrite get_atoms_lookup; [| cbn; apply lookup_insert_eq | cbn; apply lookup_insert_eq].
  cbn [mbind option_bind].
  change (symbols_eq a "Sr") with (Some (map (fun n => (n =? 38)%Z) (numbers a))).
  cbn [mbind option_bind].
  erewrite get_array_lookup by (cbn; apply lookup_insert_eq). cbn [mbind option_bind].
  erewrite get_atoms_lookup;
    [| cbn; rewrite lookup_insert_ne by discriminate; apply lookup_insert_eq
     | cbn; apply lookup_insert_eq].
  cbn [mbind option_bind column].
  destruct (multiply _ _) as [m |]; [| reflexivity]. cbn [mbind option_bind].
  erewrite get_atoms_lookup;
    [| cbn; rewrite !lookup_insert_ne by discriminate; apply lookup_insert_eq
     | cbn; apply lookup_insert_eq].
  cbn [mbind option_bind].
  erewrite get_array_lookup by (cbn; apply lookup_insert_eq). cbn [mbind option_bind].
  destruct (setitem _ _ _) as [ns |]; reflexivity.
Qed.

Lemma length_less (xs : list Q) (bound : Q) : length (less xs bound) = length xs.
Proof. unfold less. apply length_map. Qed.

Lemma length_low_Sr_mask (a : Atoms) :
  well_formed a -> length (low_Sr_mask a) = length (numbers a).
Proof.
  unfold well_formed, low_Sr_mask. intros H.
  rewrite length_zip_with, length_less, !length_map. lia.
Qed.

Lemma length_low_Sr_to_La (a : Atoms) :
  well_formed a -> length (low_Sr_to_La a) = length (numbers a).
Proof.
  intros H. unfold low_Sr_to_La. rewrite length_zip_with, length_low_Sr_mask by exact H. lia.
Qed.

(** The session the cell ends in, from a well-formed [repeated_srtio3]. *)
Lemma make_interface_run (st : session) (l : nat) (a : Atoms) :
  vars st !! "repeated_srtio3" = Some (VAtoms l) ->
  heap st !! l = Some a ->
  well_formed a ->
  make_interface st
  = Some {| vars := <["mask" := VArray (low_Sr_mask a)]>
                      (<["mask" := VArray (map (fun n => (n =? 38)%Z) (numbers a))]>
                         (<["sto_lto" := VAtoms (fresh (dom (heap st)))]> (vars st)));
            heap := <[fresh (dom (heap st)) := set_numbers (low_Sr_to_La a) a]>
                      (<[fresh (dom (heap st)) := a]> (heap st)) |}.
Proof.
  intros Hvar Hobj Hwf. rewrite (make_interface_steps st l a Hvar Hobj).
  unfold multiply. rewrite length_less, !length_map.
  rewrite (proj2 (Nat.eqb_eq _ _) Hwf). cbn [mbind option_bind].
  fold (low_Sr_mask a). unfold setitem.
  rewrite (proj2 (Nat.eqb_eq _ _) (length_low_Sr_mask a Hwf)). reflexivity.
Qed.

(** When the cell completes, [repeated_srtio3] named an object of the heap. *)
Lemma make_interface_inv (st st' : session) :
  make_interface st = Some st' ->
  exists l a, vars st !! "repeated_srtio3" = Some (VAtoms l) /\ heap st !! l = Some a.
Proof.
  unfold make_interface.
  destruct (get_atoms "repeated_srtio3" st) as [[l a] |] eqn:E; [| discriminate].
  intros _. exists l, a. apply get_atoms_inv. exact E.
Qed.

End InterfaceRuns.

(** In a heap whose objects are well formed, the cell completes exactly when
    [repeated_srtio3] names an object of the heap: run before that variable
    is set, or on a variable holding a mask, it raises.  When it completes,
    the objects of the heap are still well formed. *)
Theorem make_interface_runs_iff_structure_bound (st : Interface.session)
    (Hwf : Interface.heap_well_formed (Interface.heap st)) :
  (is_Some (Interface.make_interface st)
   <-> exists l a, Interface.vars st !! "repeated_srtio3" = Some (Interface.VAtoms l)
                   /\ Interface.heap st !! l = Some a)
  /\ forall st', Interface.make_interface st = Some st' ->
       Interface.heap_well_formed (Interface.heap st').
Proof.
  split.
  - split.
    + intros [st' H]. exact (make_interface_inv st st' H).
    + intros (l & a & Hvar & Hobj).
      rewrite (make_interface_run st l a Hvar Hobj (Hwf l a Hobj)). eauto.
  - intros st' H. destruct (make_interface_inv st st' H) as (l & a & Hvar & Hobj).
    rewrite (make_interface_run st l a Hvar Hobj (Hwf l a Hobj)) in H.
    injection H as <-. simpl. intros r b Hr.
    destruct (decide (r = fresh (dom (Interface.heap st)))) as [-> | Hne].
    + rewrite lookup_insert_eq in Hr. injection Hr as <-.
      unfold Interface.well_formed. simpl.
      rewrite length_low_Sr_to_La by exact (Hwf l a Hobj). exact (Hwf l a Hobj).
    + rewrite !lookup_insert_ne in Hr by (intros E; apply Hne; symmetry; exact E).
      exact (Hwf r b Hr).
Qed.

(** The two stacked unit cells are a well-formed heap to run the cell on. *)
Lemma make_interface_runs_iff_structure_bound_witness :
  (is_Some (Interface.make_interface Interface.session0)
   <-> exists l a,
         Interface.vars Interface.session0 !! "repeated_srtio3" = Some (Interface.VAtoms l)
         /\ Interface.heap Interface.session0 !! l = Some a)
  /\ forall st', Interface.make_interface Interface.session0 = Some st' ->
       Interface.heap_well_formed (Interface.heap st').
Proof.
  apply (make_interface_runs_iff_structure_bound Interface.session0).
  intros l a H. cbn in H. apply lookup_singleton_Some in H as [_ <-]. reflexivity.
Defined.

(** *** The interface cell: what it conserves *)

Section InterfaceCounts.
Import Interface.

Lemma count_cons (z n : Z) (ns : list Z) :
  count z (n :: ns) = if (n =? z)%Z then S (count z ns) else count z ns.
Proof. unfold count. simpl. destruct (n =? z)%Z; reflexivity. Qed.

(** Putting 57 where the number is 38 and the second mask holds moves atoms
    from 38 to 57 and touches no other species. *)
Lemma masked_counts (ns : list Z) :
  forall bs : list bool, length bs = length ns ->
    (forall z, z <> 38%Z -> z <> 57%Z ->
       count z (zip_with (fun (b : bool) n => if b then 57%Z else n)
                  (zip_with andb (map (fun n => (n =? 38)%Z) ns) bs) ns)
       = count z ns)
    /\ (count 38 (zip_with (fun (b : bool) n => if b then 57%Z else n)
                    (zip_with andb (map (fun n => (n =? 38)%Z) ns) bs) ns)
        + count 57 (zip_with (fun (b : bool) n => if b then 57%Z else n)
                      (zip_with andb (map (fun n => (n =? 38)%Z) ns) bs) ns)
        = count 38 ns + count 57 ns)%nat
    /\ (count 57 ns
        <= count 57 (zip_with (fun (b : bool) n => if b then 57%Z else n)
                       (zip_with andb (map (fun n => (n =? 38)%Z) ns) bs) ns))%nat.
Proof.
  induction ns as [| n ns IH]; intros [| b bs] Hlen; simpl in Hlen; try discriminate Hlen.
  - simpl. repeat split; auto.
  - injection Hlen as Hlen. destruct (IH bs Hlen) as (IH1 & IH2 & IH3).
    cbn [map zip_with].
    destruct (Z.eqb_spec n 38) as [-> | Hn]; destruct b; cbn [andb];
      (split; [intros z Hz1 Hz2; specialize (IH1 z Hz1 Hz2) |]);
      rewrite !count_cons;
      repeat match goal with
             | |- context [Z.eqb ?x ?y] => destruct (Z.eqb_spec x y)
             end;
      try lia.
Qed.

End InterfaceCounts.

(** Building the interface conserves the atoms: the new structure has as many
    atoms of every species other than Sr and La as the original, as many Sr
    and La together, and no fewer La. *)
Theorem interface_conserves_species
    (st : Interface.session) (l : nat) (a : Interface.Atoms)
    (Hvar : Interface.vars st !! "repeated_srtio3" = Some (Interface.VAtoms l))
    (Hobj : Interface.heap st !! l = Some a)
    (Hwf : Interface.well_formed a) :
  exists st' l' a',
    Interface.make_interface st = Some st'
    /\ Interface.get_atoms "sto_lto" st' = Some (l', a')
    /\ (forall z, z <> 38%Z -> z <> 57%Z ->
          Interface.count z (Interface.numbers a') = Interface.count z (Interface.numbers a))
    /\ (Interface.count 38 (Interface.numbers a') + Interface.count 57 (Interface.numbers a')
        = Interface.count 38 (Interface.numbers a) + Interface.count 57 (Interface.numbers a))%nat
    /\ (Interface.count 57 (Interface.numbers a)
        <= Interface.count 57 (Interface.numbers a'))%nat.
Proof.
  eexists _, (fresh (dom (Interface.heap st))),
    (Interface.set_numbers (Interface.low_Sr_to_La a) a).
  split; [apply (make_interface_run st l a Hvar Hobj Hwf) |].
  split.
  - apply get_atoms_lookup; cbn.
    + rewrite !lookup_insert_ne by discriminate. apply lookup_insert_eq.
    + apply lookup_insert_eq.
  - cbn [Interface.numbers Interface.set_numbers].
    unfold Interface.low_Sr_to_La, Interface.low_Sr_mask.
    apply masked_counts. rewrite length_less, length_map. symmetry. exact Hwf.
Qed.

Lemma interface_conserves_species_witness :
  exists st' l' a',
    Interface.make_interface Interface.session0 = Some st'
    /\ Interface.get_atoms "sto_lto" st' = Some (l', a')
    /\ (forall z, z <> 38%Z -> z <> 57%Z ->
          Interface.count z (Interface.numbers a')
          = Interface.count z (Interface.numbers Interface.two_cells))
    /\ (Interface.count 38 (Interface.numbers a') + Interface.count 57 (Interface.numbers a')
        = Interface.count 38 (Interface.numbers Interface.two_cells)
          + Interface.count 57 (Interface.numbers Interface.two_cells))%nat
    /\ (Interface.count 57 (Interface.numbers Interface.two_cells)
        <= Interface.count 57 (Interface.numbers a'))%nat.
Proof.
  apply (interface_conserves_species Interface.session0 0%nat Interface.two_cells);
    vm_compute; reflexivity.
Defined.

(** *** The interface cell: running it again *)

(** Running the cell a second time builds, in a new object, a structure equal
    to the one of the first run: the first result stays in the heap as it
    was, and so does the original. *)
Theorem interface_rerun_gives_same_structure
    (st : Interface.session) (l : nat) (a : Interface.Atoms)
    (Hvar : Interface.vars st !! "repeated_srtio3" = Some (Interface.VAtoms l))
    (Hobj : Interface.heap st !! l = Some a)
    (Hwf : Interface.well_formed a) :
  exists st1 l1 a1 st2 l2,
    Interface.make_interface st = Some st1
    /\ Interface.get_atoms "sto_lto" st1 = Some (l1, a1)
    /\ Interface.make_interface st1 = Some st2
    /\ Interface.get_atoms "sto_lto" st2 = Some (l2, a1)
    /\ l2 <> l1
    /\ Interface.heap st2 !! l1 = Some a1
    /\ Interface.get_atoms "repeated_srtio3" st2 = Some (l, a).
Proof.
  set (l1 := fresh (dom (Interface.heap st))).
  set (a1 := Interface.set_numbers (Interface.low_Sr_to_La a) a).
  assert (Hl1 : l1 <> l).
  { intros E. assert (Hnone : Interface.heap st !! l1 = None)
      by (apply not_elem_of_dom, is_fresh).
    rewrite E in Hnone. congruence. }
  pose proof (make_interface_run st l a Hvar Hobj Hwf) as Hrun1.
  fold l1 a1 in Hrun1.
  match type of Hrun1 with _ = Some ?s => set (st1 := s) in * end.
  assert (Hvar1 : Interface.vars st1 !! "repeated_srtio3" = Some (Interface.VAtoms l)).
  { cbn. rewrite !lookup_insert_ne by discriminate. exact Hvar. }
  assert (Hobj1 : Interface.heap st1 !! l = Some a).
  { cbn. rewrite !lookup_insert_ne by exact Hl1. exact Hobj. }
  assert (Hold : Interface.heap st1 !! l1 = Some a1) by (cbn; apply lookup_insert_eq).
  set (l2 := fresh (dom (Interface.heap st1))).
  assert (Hl2 : l2 <> l1).
  { intros E. assert (Hnone : Interface.heap st1 !! l2 = None)
      by (apply not_elem_of_dom, is_fresh).
    rewrite E in Hnone. congruence. }
  assert (Hl2' : l2 <> l).
  { intros E. assert (Hnone : Interface.heap st1 !! l2 = None)
      by (apply not_elem_of_dom, is_fresh).
    rewrite E in Hnone. congruence. }
  pose proof (make_interface_run st1 l a Hvar1 Hobj1 Hwf) as Hrun2.
  fold l2 a1 in Hrun2.
  match type of Hrun2 with _ = Some ?s => set (st2 := s) in * end.
  exists st1, l1, a1, st2, l2.
  split; [exact Hrun1 |]. split.
  { apply get_atoms_lookup; cbn.
    - rewrite !lookup_insert_ne by discriminate. apply lookup_insert_eq.
    - apply lookup_insert_eq. }
  split; [exact Hrun2 |]. split.
  { apply get_atoms_lookup; cbn -[st1].
    - rewrite !lookup_insert_ne by discriminate. apply lookup_insert_eq.
    - apply lookup_insert_eq. }
  split; [exact Hl2 |]. split.
  { cbn -[st1]. rewrite !lookup_insert_ne by exact Hl2. exact Hold. }
  apply get_atoms_lookup; cbn -[st1].
  - rewrite !lookup_insert_ne by discriminate. exact Hvar1.
  - rewrite !lookup_insert_ne by exact Hl2'. exact Hobj1.
Qed.

Lemma interface_rerun_gives_same_structure_witness :
  exists st1 l1 a1 st2 l2,
    Interface.make_interface Interface.session0 = Some st1
    /\ Interface.get_atoms "sto_lto" st1 = Some (l1, a1)
    /\ Interface.make_interface st1 = Some st2
    /\ Interface.get_atoms "sto_lto" st2 = Some (l2, a1)
    /\ l2 <> l1
    /\ Interface.heap st2 !! l1 = Some a1
    /\ Interface.get_atoms "repeated_srtio3" st2 = Some (0%nat, Interface.two_cells).
Proof.
  apply (interface_rerun_gives_same_structure Interface.session0 0%nat Interface.two_cells);
    vm_compute; reflexivity.
Defined.

(** *** Editing an atomic number in place (ASE notebook, cell 11) *)

(** [atoms.numbers[0] = 8] on a structure without atoms raises.  Otherwise it
    completes, binds no variable anew, and writes 8 over the first atomic
    number of the object itself: every variable that names the object sees
    the edit, and no other object changes. *)
Theorem first_atom_to_oxygen_edits_the_object
    (st : Interface.session) (l : nat) (a : Interface.Atoms)
    (Hvar : Interface.vars st !! "atoms" = Some (Interface.VAtoms l))
    (Hobj : Interface.heap st !! l = Some a) :
  match Interface.numbers a with
  | [] => Interface.first_atom_to_oxygen st = None
  | z :: rest =>
      exists st',
        Interface.first_atom_to_oxygen st = Some st'
        /\ Interface.vars st' = Interface.vars st
        /\ (forall x, Interface.vars st !! x = Some (Interface.VAtoms l) ->
              Interface.get_atoms x st'
              = Some (l, Interface.set_numbers (8%Z :: rest) a))
        /\ (forall r, r <> l -> Interface.heap st' !! r = Interface.heap st !! r)
  end.
Proof.
  unfold Interface.first_atom_to_oxygen.
  rewrite (get_atoms_lookup _ _ _ _ Hvar Hobj). cbn [mbind option_bind].
  unfold Interface.setitem_at.
  destruct (Interface.numbers a) as [| z rest]; [reflexivity |].
  cbn. eexists. split; [reflexivity |]. cbn. split; [reflexivity |]. split.
  - intros x Hx. apply get_atoms_lookup; cbn; [exact Hx | apply lookup_insert_eq].
  - intros r Hr. apply lookup_insert_ne. intros E. apply Hr. symmetry. exact E.
Qed.

(** The N2 molecule named by [atoms] and by a second variable: after the
    edit both name NO. *)
Lemma first_atom_to_oxygen_edits_the_object_witness :
  exists st',
    Interface.first_atom_to_oxygen Interface.session_N2 = Some st'
    /\ Interface.vars st' = Interface.vars Interface.session_N2
    /\ (forall x, Interface.vars Interface.session_N2 !! x = Some (Interface.VAtoms 0%nat) ->
          Interface.get_atoms x st'
          = Some (0%nat, Interface.set_numbers [8; 7]%Z Interface.nitrogen))
    /\ (forall r, r <> 0%nat ->
          Interface.heap st' !! r = Interface.heap Interface.session_N2 !! r).
Proof.
  apply (first_atom_to_oxygen_edits_the_object Interface.session_N2 0%nat Interface.nitrogen);
    vm_compute; reflexivity.
Defined.

(** *** The order of the refinements (Atomap tutorial) *)



(** *** What the function and the cells leave alone *)

(** The one function defined in the notebooks reads nothing of the session
    but the module alias [hs]: every other name in its body is its parameter
    or a variable the body assigned before.  It can be called on any signal,
    whatever the session's own [s] is. *)
Theorem get_live_fft_reads_only_hs :
  filter is_functiondef (flat_map substmts (statements code_cells)) <> []
  /\ Forall (fun d => (forall x, In x (unbound_in [] d) -> x = "hs")
                      /\ unbound_in ["hs"] d = [])
       (filter is_functiondef (flat_map substmts (statements code_cells))).
Proof.
  split; [vm_compute; discriminate |].
  vm_compute. repeat constructor.
  intros x [<- | [<- | []]]; reflexivity.
Qed.

(** In neither notebook is a name bound by an import bound again by an
    assignment, an in-place operator, a definition or a parameter: the
    library entry points stay what the imports made them. *)
Theorem imported_names_never_rebound :
  Forall (fun nb => imported_names nb <> []
                    /\ forall x, In x (imported_names nb) -> ~ In x (assigned_names nb))
    [atomap_tutorial; atomic_models_with_ase].
Proof.
  assert (H : forall nb,
             forallb (fun x => negb (bool_decide (x ∈ assigned_names nb)))
               (imported_names nb) = true ->
             forall x, In x (imported_names nb) -> ~ In x (assigned_names nb)).
  { intros nb Hb x Hx Hin. rewrite forallb_forall in Hb. specialize (Hb x Hx).
    apply negb_true_iff, bool_decide_eq_false in Hb. apply Hb, list_elem_of_In, Hin. }
  repeat constructor; try (vm_compute; discriminate); apply H; vm_compute; reflexivity.
Qed.
